(** * Turn-annotations crowdsourcing worlds

    A shallow embedding of
    [parlai/crowdsourcing/tasks/turn_annotations/worlds.py]: the onboarding
    world, the chat world, the onboarding validation hook and the bot
    selection of [make_world], followed by the properties proved about
    them.

    Python objects are records, dictionaries with a fixed set of optional
    keys are records of [option] fields (a missing key is [None], and a
    subscript on it raises [KeyError]), open dictionaries are [gmap]s,
    and methods that mutate [self] or raise are computations in a small
    state-and-exception monad. *)

From stdpp Require Import base strings list gmap sorting pretty.

Local Open Scope Z_scope.

(** ** Python exceptions, results and the method monad *)

Inductive exn : Set :=
| ValueError
| KeyError
| IndexError
| AttributeError
| TypeError
| AgentTimeoutError.

Inductive result (A : Type) : Type :=
| Ok (a : A)
| Raise (e : exn).
Arguments Ok {A} a.
Arguments Raise {A} e.

(** A method body: it reads and writes the object it runs on and either
    returns or raises.  The object keeps what was written before a raise,
    as a Python object does. *)
Definition M (S A : Type) : Type := S → result A * S.

Definition m_ret {S A} (a : A) : M S A := λ s, (Ok a, s).

Definition m_bind {S A B} (k : A → M S B) (m : M S A) : M S B :=
  λ s, match m s with
       | (Ok a, s') => k a s'
       | (Raise e, s') => (Raise e, s')
       end.

#[global] Instance M_ret {S} : MRet (M S) := λ A, m_ret.
#[global] Instance M_bind {S} : MBind (M S) := λ A B, m_bind.

Definition raise {S A} (e : exn) : M S A := λ s, (Raise e, s).
Definition get {S} : M S S := λ s, (Ok s, s).
Definition modify {S} (f : S → S) : M S unit := λ s, (Ok tt, f s).
Definition lift {S A} (r : result A) : M S A := λ s, (r, s).

(** [d[k]] on a dictionary key that may be missing. *)
Definition subscript {A} (field : option A) : result A :=
  match field with
  | Some a => Ok a
  | None => Raise KeyError
  end.

(** Runs a method body of the monad on the object at hand. *)
Ltac run_method :=
  cbv [mbind M_bind m_bind mret M_ret m_ret lift get modify raise subscript] in *;
  cbn beta iota in *.

(** ** Python built-ins used by the module *)

(** [l[i]] with Python's negative indices. *)
Definition py_index {A} (l : list A) (i : Z) : option nat :=
  let n := Z.of_nat (length l) in
  let j := if bool_decide (i < 0) then i + n else i in
  if bool_decide (0 ≤ j < n) then Some (Z.to_nat j) else None.

Definition py_getitem {A} (l : list A) (i : Z) : result A :=
  match py_index l i with
  | Some j => match l !! j with Some x => Ok x | None => Raise IndexError end
  | None => Raise IndexError
  end.

(** [l[i] = f(l[i])]: an in-place update of the element at a Python index. *)
Definition py_update {A} (l : list A) (i : Z) (f : A → A) : result (list A) :=
  match py_index l i with
  | Some j => Ok (alter f j l)
  | None => Raise IndexError
  end.

(** [sorted(l)] on a list of strings.  Strings are byte strings; [<=] on
    [str] is the lexicographic order of the code points, which on UTF-8
    bytes is the order of the bytes, that is [String.le]. *)
Definition sorted (l : list string) : list string := merge_sort String.le l.

(** [l.sort(reverse=True, key=key)], and [sorted] in general: Python's sort
    is stable, also with [reverse=True], so its result is the one of a
    stable insertion sort.  [before x y] says that [x] may stand before
    [y]; an element is put in front of the first one it may stand
    before, so equal keys keep the order of the input. *)
Fixpoint stable_insert {A} (before : A → A → bool) (x : A) (l : list A) : list A :=
  match l with
  | [] => [x]
  | y :: l' => if before x y then x :: l else y :: stable_insert before x l'
  end.

Definition stable_sort {A} (before : A → A → bool) (l : list A) : list A :=
  foldr (stable_insert before) [] l.

(** [s.split('<br>')[0]]: the text before the first occurrence of the
    marker, the whole text when there is none. *)
Definition br : string := "<br>".

Fixpoint split_br_0 (s : string) : string :=
  if String.prefix br s then ""
  else match s with
       | EmptyString => ""
       | String c s' => String c (split_br_0 s')
       end.

(** [s.strip()].  The characters that [str.isspace] holds for are the
    code points 9 to 13, 28 to 32, U+0085, U+00A0, U+1680, U+2000 to
    U+200A, U+2028, U+2029, U+202F, U+205F and U+3000; [py_space] lists
    them as the bytes of their UTF-8 form.  In a well-formed string such
    bytes at the start or at the end are that character. *)
Definition utf8 (bytes : list nat) : string :=
  String.string_of_list_ascii (Ascii.ascii_of_nat <$> bytes).

Definition py_space : list string :=
  (((λ n, utf8 [n]) <$> [9; 10; 11; 12; 13; 28; 29; 30; 31; 32])
   ++ [utf8 [194; 133]; utf8 [194; 160]; utf8 [225; 154; 128]]
   ++ ((λ n, utf8 [226; 128; n]) <$>
         [128; 129; 130; 131; 132; 133; 134; 135; 136; 137; 138; 168; 169; 175])
   ++ [utf8 [226; 129; 159]; utf8 [227; 128; 128]])%nat.

(** The string after a first part [p], when it starts with [p]. *)
Fixpoint drop_prefix (p s : string) : option string :=
  match p, s with
  | EmptyString, _ => Some s
  | String a p', String b s' =>
      if bool_decide (a = b) then drop_prefix p' s' else None
  | String _ _, EmptyString => None
  end.

(** The string after the one white-space character it starts with. *)
Definition drop_space (spaces : list string) (s : string) : option string :=
  list_find is_Some ((λ p, drop_prefix p s) <$> spaces) ≫= snd.

(** At most [n] leading white-space characters are dropped; a string has
    no more of them than it has bytes. *)
Fixpoint py_lstrip_upto (spaces : list string) (n : nat) (s : string) : string :=
  match n with
  | O => s
  | S n' =>
      match drop_space spaces s with
      | Some s' => py_lstrip_upto spaces n' s'
      | None => s
      end
  end.

Definition py_lstrip (s : string) : string :=
  py_lstrip_upto py_space (String.length s) s.

(** The end is stripped as the start of the reversed string is, with the
    bytes of each character reversed too. *)
Definition py_rstrip (s : string) : string :=
  String.rev (py_lstrip_upto (String.rev <$> py_space) (String.length s)
                             (String.rev s)).

Definition py_strip (s : string) : string := py_rstrip (py_lstrip s).

(** [sep.join(l)]; an item that is [None] is a [TypeError]. *)
Definition py_join (sep : string) (l : list (option string)) : result string :=
  match mapM id l with
  | Some l' => Ok (String.concat sep l')
  | None => Raise TypeError
  end.

(** [str(v)] for a value that is a string or [None], as an f-string
    formats it. *)
Definition py_str (v : option string) : string := default "None" v.

Definition NL : string := String (Ascii.ascii_of_nat 10) "".
Definition DQ : string := String (Ascii.ascii_of_nat 34) "".

(** ** Messages *)

(** The [task_data] dictionary of a worker's message. *)
Record TaskData : Type := {
  annotations : option (list (gmap string bool));
  final_rating : option string;
  problem_data_for_prior_message : option (gmap string bool);
}.

(** A message returned by [agent.act()]. *)
Record Act : Type := {
  act_text : option string;
  act_id : option string;
  task_data : option TaskData;
}.

(** ** The onboarding world *)

Module TurnAnnotationsOnboardWorld.

(** One entry of a turn of the reference dialog; [t[1]['answers']] is the
    list of labels that are right for the turn. *)
Record TurnEntry : Type := { entry_text : string; answers : list string }.

Record OnboardTaskData : Type := { dialog : list (TurnEntry * TurnEntry) }.

(** The options [__init__] reads, with [ONBOARD_CONFIG] of [constants.py]. *)
Record Opt : Type := {
  config_min_correct : Z;
  config_max_incorrect : Z;
  opt_onboard_task_data : OnboardTaskData;
  opt_max_onboard_time : Z;
  opt_onboarding_qualification : string;
}.

(** What the world sends out: messages shown to the worker and
    qualifications granted to them. *)
Inductive Effect : Type :=
| Observe (final_status : string)
| GrantQualification (name : string) (value : Z).

Record World : Type := {
  min_correct : Z;
  max_incorrect : Z;
  onboard_task_data : OnboardTaskData;
  status : string;
  max_onboard_time : Z;
  onboarding_qualification : string;
  episodeDone : bool;
  effects : list Effect;
}.

Definition set_status (v : string) (w : World) : World :=
  {| min_correct := min_correct w; max_incorrect := max_incorrect w;
     onboard_task_data := onboard_task_data w; status := v;
     max_onboard_time := max_onboard_time w;
     onboarding_qualification := onboarding_qualification w;
     episodeDone := episodeDone w; effects := effects w |}.

Definition set_episodeDone (v : bool) (w : World) : World :=
  {| min_correct := min_correct w; max_incorrect := max_incorrect w;
     onboard_task_data := onboard_task_data w; status := status w;
     max_onboard_time := max_onboard_time w;
     onboarding_qualification := onboarding_qualification w;
     episodeDone := v; effects := effects w |}.

Definition emit (e : Effect) (w : World) : World :=
  {| min_correct := min_correct w; max_incorrect := max_incorrect w;
     onboard_task_data := onboard_task_data w; status := status w;
     max_onboard_time := max_onboard_time w;
     onboarding_qualification := onboarding_qualification w;
     episodeDone := episodeDone w; effects := effects w ++ [e] |}.

(** [episodeDone] is set up, as [False], by the base class. *)
Definition __init__ (opt : Opt) : World :=
  {| min_correct := config_min_correct opt;
     max_incorrect := config_max_incorrect opt;
     onboard_task_data := opt_onboard_task_data opt;
     status := "DISCONNECT";
     max_onboard_time := opt_max_onboard_time opt;
     onboarding_qualification := opt_onboarding_qualification opt;
     episodeDone := false;
     effects := [] |}.

Definition has_same_answer (ans1 ans2 : list string) : bool :=
  if bool_decide (length ans1 ≠ length ans2) then false
  else
    let ans1_sort := sorted ans1 in
    let ans2_sort := sorted ans2 in
    forallb (λ x, bool_decide (ans1_sort !! x = ans2_sort !! x))
            (seq 0 (length ans1_sort)).

(** [[key for key, selected in worker_answer.items() if selected]].  The
    keys come in the order of the map, not in the order the worker
    marked them; the list is only measured and sorted. *)
Definition worker_only_selected (worker_answer : gmap string bool) : list string :=
  (filter (λ kv, kv.2 = true) (map_to_list worker_answer)).*1.

(** The loop of [check_onboarding_answers]: the two counters after the
    pairs of [zip(worker_answers, correct_answers)]. *)
Definition count_answers (pairs : list (gmap string bool * list string)) : Z * Z :=
  fold_left
    (λ (counts : Z * Z) (p : gmap string bool * list string),
       if has_same_answer (worker_only_selected p.1) p.2
       then (counts.1 + 1, counts.2)
       else (counts.1, counts.2 + 1))
    pairs (0, 0).

Definition check_onboarding_answers (self : World)
    (worker_answers : list (gmap string bool)) : bool :=
  let given_turns := dialog (onboard_task_data self) in
  let correct_answers := (λ t : TurnEntry * TurnEntry, answers t.2) <$> given_turns in
  let '(number_correct, number_incorrect) :=
    count_answers (zip worker_answers correct_answers) in
  bool_decide (number_correct >= min_correct self) &&
  bool_decide (number_incorrect ≤ max_incorrect self).

Section constants.
(** [ONBOARD_FAIL] and [ONBOARD_SUCCESS] of [constants.py]. *)
Variables ONBOARD_FAIL ONBOARD_SUCCESS : string.

Definition _handle_act (act : Act) : M World string :=
  match task_data act with
  | None => mret ONBOARD_FAIL
  | Some td =>
      worker_answers ← lift (subscript (annotations td));
      self ← get;
      if check_onboarding_answers self worker_answers then
        modify (set_episodeDone true);;
        mret ONBOARD_SUCCESS
      else
        modify (emit (GrantQualification (onboarding_qualification self) 0));;
        mret ONBOARD_FAIL
  end.

(** The loop that holds a failed worker: each further [agent.act] is
    thrown away; [later] are the calls made before the time is up. *)
Fixpoint hold (later : list (result Act)) : M World unit :=
  match later with
  | [] => mret tt
  | r :: later' => lift r;; hold later'
  end.

(** [reply] is what [agent.act(timeout=...)] gives: a message, or the
    exception it raises when the worker does not answer in time. *)
Definition parley (reply : result Act) (later : list (result Act)) : M World unit :=
  act ← lift reply;
  st ← _handle_act act;
  modify (set_status st);;
  self ← get;
  modify (emit (Observe (status self)));;
  if bool_decide (status self = ONBOARD_FAIL) then hold later else mret tt.
End constants.

(** [shutdown]: under the lock, count the session's status in the shared
    histogram. *)
Definition shutdown (self : World) (onboard_statistics : gmap string Z) : gmap string Z :=
  let stats :=
    if bool_decide (status self ∉ dom onboard_statistics)
    then <[status self := 0]> onboard_statistics
    else onboard_statistics in
  <[status self := stats !!! status self + 1]> stats.

End TurnAnnotationsOnboardWorld.

(** ** The chat world *)

Module TurnAnnotationsChatWorld.

(** [context_info]: the keys the world reads; a key that holds [None] is
    [Some None]. *)
Record ContextInfo : Type := {
  persona_1_strings : option (list string);
  persona_2_strings : option (list string);
  context_dataset : option (option string);
  additional_context : option (option string);
  person1_seed_utterance : option string;
  person2_seed_utterance : option string;
}.

Definition empty_context : ContextInfo :=
  {| persona_1_strings := None; persona_2_strings := None;
     context_dataset := None; additional_context := None;
     person1_seed_utterance := None; person2_seed_utterance := None |}.

Record Opt : Type := {
  opt_num_turns : Z;
  include_persona : bool;
  conversation_start_mode : string;
  opt_check_acceptability : bool;
  opt_block_qualification : string;
  is_sandbox : bool;
}.

(** An entry of [self.dialog].  [fake_start] is [true] when the entry has
    the key (it is only ever set to [True]); [problem_data] is [None]
    until the key is written. *)
Record Utterance : Type := {
  agent_idx : Z;
  text : string;
  id : string;
  fake_start : bool;
  problem_data : option (gmap string bool);
}.

(** What [observe] is called with. *)
Inductive Message : Type :=
| System (message_text : string)
| Said (u : Utterance)
| Acted (a : Act).

Record World : Type := {
  opt : Opt;
  task_turn_idx : Z;
  num_turns : Z;
  dialog : list Utterance;
  chat_done : bool;
  context_info : ContextInfo;
  personas : option (list string * list string);
  check_acceptability : bool;
  block_qualification : string;
  task_type : string;
  agent_id : string;
  bot_id : string;
  bot_worker_id : string;
  agent_observed : list Message;
  bot_observed : list Message;
}.

Definition with_state (w : World) (idx : Z) (d : list Utterance) (done : bool)
    (ao bo : list Message) : World :=
  {| opt := opt w; task_turn_idx := idx; num_turns := num_turns w;
     dialog := d; chat_done := done; context_info := context_info w;
     personas := personas w; check_acceptability := check_acceptability w;
     block_qualification := block_qualification w; task_type := task_type w;
     agent_id := agent_id w; bot_id := bot_id w;
     bot_worker_id := bot_worker_id w;
     agent_observed := ao; bot_observed := bo |}.

Definition set_task_turn_idx (v : Z) (w : World) : World :=
  with_state w v (dialog w) (chat_done w) (agent_observed w) (bot_observed w).
Definition set_dialog (v : list Utterance) (w : World) : World :=
  with_state w (task_turn_idx w) v (chat_done w) (agent_observed w) (bot_observed w).
Definition set_chat_done (v : bool) (w : World) : World :=
  with_state w (task_turn_idx w) (dialog w) v (agent_observed w) (bot_observed w).
Definition agent_observe (m : Message) (w : World) : World :=
  with_state w (task_turn_idx w) (dialog w) (chat_done w)
             (agent_observed w ++ [m]) (bot_observed w).
Definition bot_observe (m : Message) (w : World) : World :=
  with_state w (task_turn_idx w) (dialog w) (chat_done w)
             (agent_observed w) (bot_observed w ++ [m]).

(** [self.dialog.append(u)]. *)
Definition dialog_append (u : Utterance) (w : World) : World :=
  set_dialog (dialog w ++ [u]) w.

Definition set_problem_data (p : gmap string bool) (u : Utterance) : Utterance :=
  {| agent_idx := agent_idx u; text := text u; id := id u;
     fake_start := fake_start u; problem_data := Some p |}.

Definition __init__ (o : Opt) (agent_id bot_id bot_worker_id : string)
    (context_info : option ContextInfo) : result World :=
  let mk ci ps :=
    {| opt := o; task_turn_idx := 0; num_turns := opt_num_turns o;
       dialog := []; chat_done := false; context_info := ci; personas := ps;
       check_acceptability := opt_check_acceptability o;
       block_qualification := opt_block_qualification o;
       task_type := if is_sandbox o then "sandbox" else "live";
       agent_id := agent_id; bot_id := bot_id; bot_worker_id := bot_worker_id;
       agent_observed := []; bot_observed := [] |} in
  match context_info with
  | Some ci =>
      match persona_1_strings ci, persona_2_strings ci with
      | Some p1, Some p2 => Ok (mk ci (Some (p1, p2)))
      | _, _ => Raise KeyError
      end
  | None => Ok (mk empty_context None)
  end.

(** [self.dialog[turn_idx]['problem_data'] = p]. *)
Definition __add_problem_data_to_utterance (p : gmap string bool) (turn_idx : Z)
    : M World unit :=
  self ← get;
  d ← lift (py_update (dialog self) turn_idx (set_problem_data p));
  modify (set_dialog d).

Definition _get_persona_utterance (num_turns : Z) (persona_strings : list string)
    (context_dataset additional_context : option string) (is_bot : bool)
    : result string :=
  if is_bot then
    let persona_pieces := (λ str_, Some ("your persona: " +:+ str_)) <$> persona_strings in
    let additional_context_pieces :=
      if bool_decide (context_dataset = Some "wizard_of_wikipedia")
      then [additional_context] else [] in
    py_join NL (persona_pieces ++ additional_context_pieces)
  else
    let last_sentence : result string :=
      if bool_decide (context_dataset = Some "convai2") then
        Ok "Pretend that the conversation has already begun."
      else if bool_decide (context_dataset = Some "empathetic_dialogues") then
        Ok ("Pretend that the conversation has already begun, and that you "
            +:+ "had been talking about the following situation: "
            +:+ "<b>" +:+ DQ +:+ py_str additional_context +:+ DQ +:+ "</b>")
      else if bool_decide (context_dataset = Some "wizard_of_wikipedia") then
        Ok ("Pretend that the conversation has already begun, and that you "
            +:+ "had been talking about <b>" +:+ py_str additional_context
            +:+ "</b>.")
      else Raise ValueError in
    match last_sentence with
    | Raise e => Raise e
    | Ok last_sentence =>
        let joined_personas := String.concat NL persona_strings in
        Ok (NL +:+ "Successfully matched with another user! Now let's get to know "
            +:+ "each other through the chat. You need to finish at least "
            +:+ "<b>" +:+ pretty num_turns +:+ " chat turns</b>, and after that you can click the "
            +:+ DQ +:+ "Done" +:+ DQ +:+ " button to end the chat." +:+ NL +:+ NL
            +:+ "<b>Your character description is:" +:+ NL
            +:+ "<span style=" +:+ DQ +:+ "color:blue" +:+ DQ +:+ ">"
            +:+ joined_personas +:+ "</span></b> "
            +:+ NL +:+ NL +:+ "<b>Remember that you can get to know each "
            +:+ "other as your characters, talk about any topic, or talk about a "
            +:+ "situation that might have happened to your character.</b>"
            +:+ NL +:+ "<b>Do not trivially copy the "
            +:+ "character descriptions into the message.</b><br><br>"
            +:+ last_sentence)
    end.

(** The turn with [task_turn_idx == 0]: the persona for the bot, then the
    start of the conversation as [conversation_start_mode] asks.
    [bot_reply] is what [self.bot.act()] gives. *)
Definition send_persona : M World unit :=
  self ← get;
  ps ← lift (match personas self with Some ps => Ok ps | None => Raise TypeError end);
  let persona_strings := py_strip <$> ps.2 in
  cd ← lift (subscript (context_dataset (context_info self)));
  ac ← lift (subscript (additional_context (context_info self)));
  persona_utterance ←
    lift (_get_persona_utterance (num_turns self) persona_strings cd ac true);
  modify (bot_observe (System persona_utterance)).

Definition start_bst : M World unit :=
  self ← get;
  t1 ← lift (subscript (person1_seed_utterance (context_info self)));
  let human_first_msg :=
    {| agent_idx := 0; text := t1; id := agent_id self;
       fake_start := true; problem_data := None |} in
  t2 ← lift (subscript (person2_seed_utterance (context_info self)));
  let bot_first_msg :=
    {| agent_idx := 1; text := t2; id := bot_id self;
       fake_start := true; problem_data := None |} in
  modify (dialog_append human_first_msg);;
  modify (dialog_append bot_first_msg);;
  modify (agent_observe (Said human_first_msg));;
  modify (agent_observe (Said bot_first_msg));;
  modify (bot_observe (Said human_first_msg));;
  modify (bot_observe (Said bot_first_msg)).

Definition start_hi (bot_reply : result Act) : M World unit :=
  self ← get;
  let human_first_msg :=
    {| agent_idx := 0; text := "Hi!"; id := agent_id self;
       fake_start := true; problem_data := None |} in
  modify (dialog_append human_first_msg);;
  modify (agent_observe (Said human_first_msg));;
  modify (bot_observe (Said human_first_msg));;
  first_bot_act ← lift bot_reply;
  modify (agent_observe (Acted first_bot_act));;
  t ← lift (subscript (act_text first_bot_act));
  i ← lift (subscript (act_id first_bot_act));
  let bot_utterance_data :=
    {| agent_idx := 1; text := t; id := i;
       fake_start := false; problem_data := None |} in
  modify (dialog_append bot_utterance_data).

Definition first_turn (bot_reply : result Act) : M World unit :=
  self ← get;
  (if include_persona (opt self) then send_persona else mret tt);;
  (if bool_decide (conversation_start_mode (opt self) = "bst") then start_bst
   else if bool_decide (conversation_start_mode (opt self) = "hi") then start_hi bot_reply
   else raise ValueError);;
  self ← get;
  modify (set_task_turn_idx (task_turn_idx self + 1)).

(** [acts[idx].get('task_data', {}).get('final_rating')]. *)
Definition final_rating_of (a : Act) : option string :=
  td ← task_data a; final_rating td.

(** [acts[idx]['task_data']['problem_data_for_prior_message']]. *)
Definition problem_data_of (a : Act) : result (gmap string bool) :=
  match task_data a with
  | Some td => subscript (problem_data_for_prior_message td)
  | None => Raise KeyError
  end.

(** One round of the loop over [[self.agent, self.bot]]; the result tells
    whether the body ran [return]. *)
Definition side (idx : Z) (reply : result Act) : M World bool :=
  self ← get;
  act ← (if chat_done self then raise AttributeError else lift reply);
  match final_rating_of act with
  | Some _ =>
      modify (set_chat_done true);;
      (if bool_decide (task_turn_idx self > num_turns self) then
         p ← lift (problem_data_of act);
         __add_problem_data_to_utterance p (idx - 1)
       else mret tt);;
      mret true
  | None =>
      t ← lift (subscript (act_text act));
      let utterance_data :=
        {| agent_idx := idx; text := split_br_0 t;
           id := default "NULL_ID" (act_id act);
           fake_start := false; problem_data := None |} in
      modify (dialog_append utterance_data);;
      (if bool_decide (idx = 0) then
         p ← lift (problem_data_of act);
         __add_problem_data_to_utterance p (idx - 1)
       else mret tt);;
      modify (if bool_decide (idx = 0) then bot_observe (Acted act)
              else agent_observe (Acted act));;
      self ← get;
      modify (set_task_turn_idx (task_turn_idx self + 1));;
      mret false
  end.

(** [parley]: [human_reply] and [bot_reply] are what [agent.act] gives on
    each side when it is called: a message, as [maybe_fix_act] hands it
    on, or the exception raised. *)
Definition parley (human_reply bot_reply : result Act) : M World unit :=
  self ← get;
  if bool_decide (task_turn_idx self = 0) then first_turn bot_reply
  else
    returned ← side 0 human_reply;
    if (returned : bool) then mret tt
    else side 1 bot_reply;; mret tt.

Definition episode_done (self : World) : bool := chat_done self.

(** [shutdown]: a finished chat is counted for its bot. *)
Definition shutdown (self : World) (run_statistics : gmap string Z)
    : result (gmap string Z) :=
  if chat_done self then
    match run_statistics !! bot_worker_id self with
    | Some n => Ok (<[bot_worker_id self := n + 1]> run_statistics)
    | None => Raise KeyError
    end
  else Ok run_statistics.

(** What [save_data] decides: the violations it stores and whether it
    grants the blocking qualification.  The file it writes holds [dialog]
    and the fields of [context_info] as they are. *)
Record Saved : Type := {
  acceptability_violations : option string;
  saved_dialog : list Utterance;
  block_granted : bool;
}.

Definition violation_types (conversation_start_mode : string) : list string :=
  ["min_words"; "all_caps"; "exact_match"; "safety"]
  ++ (if bool_decide (conversation_start_mode = "bst")
      then ["penalize_greetings"] else []).

Definition human_texts (d : list Utterance) : list string :=
  text <$> filter (λ message, agent_idx message = 0) d.

Section acceptability.
(** [AcceptabilityChecker.check_messages(messages, is_worker_0,
    violation_types)] of [parlai.crowdsourcing.utils.acceptability]. *)
Variable check_messages : list string → bool → list string → string.

Definition save_data (self : World) : Saved :=
  let violations_string :=
    if check_acceptability self then
      Some (check_messages (human_texts (dialog self)) false
              (violation_types (conversation_start_mode (opt self))))
    else None in
  {| acceptability_violations := violations_string;
     saved_dialog := dialog self;
     block_granted :=
       check_acceptability self &&
       bool_decide (violations_string ≠ Some "") |}.
End acceptability.

End TurnAnnotationsChatWorld.

(** ** Module-level functions *)

(** A packet of the exchanged-message log, and the [data] it carries. *)
Record Payload : Type := { final_status : option string }.
Record Packet : Type := { data : option Payload }.

Section validate.
Variable ONBOARD_SUCCESS : string.

(** [validate_onboarding(data)], on [data['outputs']['messages']]; an
    entry of the list may be [None]. *)
Definition validate_onboarding (messages : list (option Packet)) : result bool :=
  if bool_decide (length messages = 0%nat) then Ok false
  else
    match py_getitem messages (-2) with
    | Raise e => Raise e
    | Ok status_message =>
        match status_message with
        | None => Ok false
        | Some status_message =>
            match data status_message with
            | None => Ok false
            | Some submitted_data =>
                Ok (bool_decide (final_status submitted_data = Some ONBOARD_SUCCESS))
            end
        end
    end.
End validate.

(** The choice of the bot in [make_world], under [statistics_condition]:
    [conversations_needed] is the dictionary's items in their order,
    [run_statistics] the shared counters.  It gives the model's name and
    the counters after the increment. *)
Definition remaining_counts_needed (conversations_needed : list (string * Z))
    (run_statistics : gmap string Z) : result (list (string * Z)) :=
  match mapM (λ mc : string * Z, n ← run_statistics !! mc.1; Some (mc.1, mc.2 - n))
             conversations_needed with
  | Some l => Ok l
  | None => Raise KeyError
  end.

Definition make_world (conversations_needed : list (string * Z))
    (run_statistics : gmap string Z) : result (string * gmap string Z) :=
  match remaining_counts_needed conversations_needed run_statistics with
  | Raise e => Raise e
  | Ok remaining =>
      let remaining := stable_sort (λ x y : string * Z, bool_decide (y.2 ≤ x.2)) remaining in
      match py_getitem remaining 0 with
      | Raise e => Raise e
      | Ok first =>
          let model_name := first.1 in
          match run_statistics !! model_name with
          | Some n => Ok (model_name, <[model_name := n + 1]> run_statistics)
          | None => Raise KeyError
          end
      end
  end.

(** ** Vocabulary of the properties *)

(** The labels of the reference list are exactly the labels the worker
    marked true. *)
Definition same_label_set (worker_answer : gmap string bool) (correct_answer : list string) : Prop :=
  ∀ key, key ∈ correct_answer ↔ worker_answer !! key = Some true.

(** A right turn as the code decides it: the reference list names each of
    the worker's labels once. *)
Definition right_turn (worker_answer : gmap string bool) (correct_answer : list string) : Prop :=
  NoDup correct_answer ∧ same_label_set worker_answer correct_answer.

(** A message that carries no answer: no [task_data], no [annotations] in
    it, or an empty list of them. *)
Definition zero_submitted_answers (act : Act) : Prop :=
  ∀ td worker_answers,
    task_data act = Some td → annotations td = Some worker_answers →
    worker_answers = [].

(** The counts of the right and the wrong turns among the pairs of a
    submission, for a given notion of a right turn. *)
Inductive tally (right : gmap string bool → list string → Prop)
    : list (gmap string bool * list string) → Z → Z → Prop :=
| tally_nil : tally right [] 0 0
| tally_right wa ca pairs c i :
    right wa ca → tally right pairs c i → tally right ((wa, ca) :: pairs) (c + 1) i
| tally_wrong wa ca pairs c i :
    ¬ right wa ca → tally right pairs c i → tally right ((wa, ca) :: pairs) c (i + 1).

(** The element a stable sort puts first: going from the end of the list,
    each element takes the place of the best so far when it may stand
    before it. *)
Definition first_of {A} (before : A → A → bool) (l : list A) : option A :=
  foldr (λ x best,
           Some (match best with
                 | Some y => if before x y then x else y
                 | None => x
                 end))
        None l.

Section chat_vocabulary.
Import TurnAnnotationsChatWorld.

(** What an entry of the dialog says, apart from the problem data that
    may be attached to it later. *)
Definition said (u : Utterance) : Z * string * string * bool :=
  (agent_idx u, text u, id u, fake_start u).


(** The entry recorded for a message without a final rating. *)
Definition utterance_data (idx : Z) (act : Act) (t : string) : Utterance :=
  {| agent_idx := idx; text := split_br_0 t;
     id := default "NULL_ID" (act_id act);
     fake_start := false; problem_data := None |}.

(** The two entries that start a conversation. *)
Definition seed_pair (self : World) (t1 t2 : string) : list Utterance :=
  [ {| agent_idx := 0; text := t1; id := agent_id self;
       fake_start := true; problem_data := None |};
    {| agent_idx := 1; text := t2; id := bot_id self;
       fake_start := true; problem_data := None |} ].

Definition greeting_pair (self : World) (t i : string) : list Utterance :=
  [ {| agent_idx := 0; text := "Hi!"; id := agent_id self;
       fake_start := true; problem_data := None |};
    {| agent_idx := 1; text := t; id := i;
       fake_start := false; problem_data := None |} ].

(** The worlds a conversation goes through: from [start], by calls of
    [parley] that return. *)
Inductive reachable (start : World) : World → Prop :=
| reachable_start : reachable start start
| reachable_parley self self' human_reply bot_reply :
    reachable start self →
    parley human_reply bot_reply self = (Ok tt, self') →
    reachable start self'.

(** The loop that drives a world: [parley] until [episode_done], one pair
    of replies for each call. *)
Fixpoint run (replies : list (result Act * result Act)) (self : World)
    : result unit * World :=
  match replies with
  | [] => (Ok tt, self)
  | (human_reply, bot_reply) :: replies' =>
      if episode_done self then (Ok tt, self)
      else match parley human_reply bot_reply self with
           | (Ok _, self') => run replies' self'
           | (Raise e, self') => (Raise e, self')
           end
  end.


End chat_vocabulary.

(** ** Sample data *)

Section onboarding_samples.
Import TurnAnnotationsOnboardWorld.

(** The reference list of a turn that names a label twice, and a worker
    who marked that label. *)
Definition repeated_label_world : World :=
  {| min_correct := 1; max_incorrect := 0;
     onboard_task_data :=
       {| dialog := [({| entry_text := "How are you?"; answers := [] |},
                      {| entry_text := "I am a bot."; answers := ["a"; "a"] |})] |};
     status := "DISCONNECT"; max_onboard_time := 300;
     onboarding_qualification := "onboarding_failed";
     episodeDone := false; effects := [] |}.

Definition marked_a : gmap string bool := {["a" := true]}.

Definition no_problem : gmap string bool := {["none_all_good" := true]}.

(** A submission whose list of annotations is empty, and one whose
    [task_data] has no list at all. *)
Definition empty_submission : Act :=
  {| act_text := Some ""; act_id := Some "Worker";
     task_data := Some {| annotations := Some []; final_rating := None;
                          problem_data_for_prior_message := None |} |}.

Definition submission_without_annotations : Act :=
  {| act_text := Some ""; act_id := Some "Worker";
     task_data := Some {| annotations := None; final_rating := None;
                          problem_data_for_prior_message := None |} |}.

End onboarding_samples.

Section chat_samples.
Import TurnAnnotationsChatWorld.

Definition sample_context (dataset : string) : ContextInfo :=
  {| persona_1_strings := Some ["i like dogs."];
     persona_2_strings := Some ["i am a chef. "];
     context_dataset := Some (Some dataset);
     additional_context := Some None;
     person1_seed_utterance := Some "Hello, how are you?";
     person2_seed_utterance := Some "Fine, I just cooked." |}.

Definition sample_opt (mode : string) (turns : Z) : Opt :=
  {| opt_num_turns := turns; include_persona := true;
     conversation_start_mode := mode; opt_check_acceptability := true;
     opt_block_qualification := "blocked"; is_sandbox := true |}.

(** The world [__init__] builds from these. *)
Definition start_world (mode dataset : string) (turns : Z) : World :=
  {| opt := sample_opt mode turns; task_turn_idx := 0; num_turns := turns;
     dialog := []; chat_done := false; context_info := sample_context dataset;
     personas := Some (["i like dogs."], ["i am a chef. "]);
     check_acceptability := true; block_qualification := "blocked";
     task_type := "sandbox"; agent_id := "Worker"; bot_id := "Bot";
     bot_worker_id := "bot_1"; agent_observed := []; bot_observed := [] |}.

Definition human_says (t : string) : Act :=
  {| act_text := Some t; act_id := Some "Worker";
     task_data := Some {| annotations := None; final_rating := None;
                          problem_data_for_prior_message := Some no_problem |} |}.

Definition bot_says (t : string) : Act :=
  {| act_text := Some t; act_id := Some "Bot"; task_data := None |}.

Definition rates (who : string) (p : gmap string bool) : Act :=
  {| act_text := Some ""; act_id := Some who;
     task_data := Some {| annotations := None; final_rating := Some "4";
                          problem_data_for_prior_message := Some p |} |}.

(** The first turn, one exchange, and the human's rating. *)
Definition short_chat : list (result Act * result Act) :=
  [ (Ok (human_says ""), Ok (bot_says "Hello there<br>[boxes]"));
    (Ok (human_says "What do you cook?<br>"), Ok (bot_says "Pasta.<br>[boxes]"));
    (Ok (rates "Worker" no_problem), Ok (bot_says "")) ].

Definition seeded_chat : World := (run short_chat (start_world "bst" "convai2" 1)).2.
Definition greeted_chat : World := (run short_chat (start_world "hi" "convai2" 1)).2.

Definition before_rating : World :=
  (run (take 2 short_chat) (start_world "bst" "convai2" 1)).2.

Definition off_topic : gmap string bool := {["off_topic" := true]}.

(** A checker that reports the rules it was given. *)
Definition rules_given (messages : list string) (is_worker_0 : bool)
    (violation_types : list string) : string :=
  String.concat "," violation_types.

End chat_samples.

Definition needed : list (string * Z) := [("a", 2); ("b", 5); ("c", 5)].
Definition counted : gmap string Z := {["a" := 0; "b" := 1; "c" := 1]}.

(** ** Further vocabulary and samples *)

Section chat_vocabulary_further.
Import TurnAnnotationsChatWorld.

(** What a world is set up with and no call changes: its options,
    context and names. *)
Definition setting (self : World)
    : Opt * Z * ContextInfo * option (list string * list string) * bool
      * string * string * (string * string * string) :=
  (opt self, num_turns self, context_info self, personas self,
   check_acceptability self, block_qualification self, task_type self,
   (agent_id self, bot_id self, bot_worker_id self)).

(** The texts of the human's entries, one for each entry of agent 0 and
    in the order of the dialog. *)
Inductive human_side_texts : list Utterance → list string → Prop :=
| human_side_nil : human_side_texts [] []
| human_side_keep u d texts :
    agent_idx u = 0 → human_side_texts d texts →
    human_side_texts (u :: d) (text u :: texts)
| human_side_skip u d texts :
    agent_idx u ≠ 0 → human_side_texts d texts →
    human_side_texts (u :: d) texts.

(** The entry of the literal greeting. *)
Definition greeting (self : World) : Utterance :=
  {| agent_idx := 0; text := "Hi!"; id := agent_id self;
     fake_start := true; problem_data := None |}.
End chat_vocabulary_further.

Section samples_further.

(** A log of two packets, the first with the success status. *)
Definition sample_log : list (option Packet) :=
  [ Some {| data := Some {| final_status := Some "ONBOARD_SUCCESS" |} |};
    Some {| data := None |} ].

(** A submission that marks [a] in its only turn, the same with a box
    sent as false, and a message without [task_data]. *)
Definition marked_submission : Act :=
  {| act_text := Some ""; act_id := Some "Worker";
     task_data := Some {| annotations := Some [marked_a]; final_rating := None;
                          problem_data_for_prior_message := None |} |}.

Definition marked_a_not_b : gmap string bool := <["b" := false]> marked_a.

Definition bare_message : Act :=
  {| act_text := Some ""; act_id := Some "Worker"; task_data := None |}.

(** One bot asked for three times, not yet counted. *)
Definition needed_once : list (string * Z) := [("bot_1", 3)].
Definition counted_once : gmap string Z := {["bot_1" := 0]}.
End samples_further.

(** * Properties *)

(** ** Onboarding answers *)

Section onboarding_answers.
Import TurnAnnotationsOnboardWorld.

Lemma sorted_Permutation l : sorted l ≡ₚ l.
Proof. apply merge_sort_Permutation. Qed.

Lemma sorted_eq_iff l1 l2 : sorted l1 = sorted l2 ↔ l1 ≡ₚ l2.
Proof.
  split; intros H.
  - rewrite <- (sorted_Permutation l1), <- (sorted_Permutation l2), H. done.
  - apply (StronglySorted_unique String.le).
    + apply StronglySorted_merge_sort; apply _.
    + apply StronglySorted_merge_sort; apply _.
    + rewrite !sorted_Permutation. done.
Qed.

Lemma same_at_each_index (l1 l2 : list string) :
  length l1 = length l2 →
  forallb (λ x, bool_decide (l1 !! x = l2 !! x)) (seq 0 (length l1)) = true ↔ l1 = l2.
Proof.
  intros Hlen. rewrite forallb_forall. split.
  - intros H. apply list_eq. intros i.
    destruct (decide (i < length l1)%nat) as [Hi|Hi].
    + specialize (H i). rewrite bool_decide_eq_true in H. apply H.
      apply in_seq. lia.
    + rewrite !lookup_ge_None_2; [done | lia | lia].
  - intros -> x _. by apply bool_decide_eq_true.
Qed.

Lemma has_same_answer_Permutation ans1 ans2 :
  has_same_answer ans1 ans2 = true ↔ ans1 ≡ₚ ans2.
Proof.
  unfold has_same_answer. case_bool_decide as Hlen.
  - split; [done |]. intros HP. by apply Permutation_length in HP.
  - rewrite same_at_each_index.
    + apply sorted_eq_iff.
    + rewrite !(Permutation_length (sorted_Permutation _)). lia.
Qed.

Lemma elem_of_worker_only_selected worker_answer key :
  key ∈ worker_only_selected worker_answer ↔ worker_answer !! key = Some true.
Proof.
  unfold worker_only_selected. rewrite list_elem_of_fmap. split.
  - intros [[k b] [-> [Hb Hin]%list_elem_of_filter]]. simpl in *. subst b.
    by apply elem_of_map_to_list.
  - intros H. exists (key, true). split; [done |].
    apply list_elem_of_filter. split; [done |]. by apply elem_of_map_to_list.
Qed.

Lemma NoDup_worker_only_selected worker_answer :
  NoDup (worker_only_selected worker_answer).
Proof.
  unfold worker_only_selected.
  assert (Hsub : (filter (λ kv : string * bool, kv.2 = true)
                    (map_to_list worker_answer)).*1 `sublist_of`
                 (map_to_list worker_answer).*1).
  { apply fmap_sublist, sublist_filter. }
  eapply sublist_NoDup; [| exact Hsub]. apply NoDup_fst_map_to_list.
Qed.

(** A turn is right exactly when the reference list is free of repeats
    and holds the labels the worker marked true. *)
Lemma has_same_answer_selected worker_answer correct_answer :
  has_same_answer (worker_only_selected worker_answer) correct_answer = true ↔
  NoDup correct_answer ∧ same_label_set worker_answer correct_answer.
Proof.
  rewrite has_same_answer_Permutation. unfold same_label_set. split.
  - intros HP. split.
    + rewrite <- HP. apply NoDup_worker_only_selected.
    + intros key. rewrite <- HP. apply elem_of_worker_only_selected.
  - intros [Hnd Hset]. apply NoDup_Permutation; [apply NoDup_worker_only_selected | done |].
    intros key. rewrite elem_of_worker_only_selected. symmetry. apply Hset.
Qed.

Lemma count_answers_tally pairs c0 i0 :
  ∃ c i, tally right_turn pairs c i ∧ 0 ≤ c ∧ 0 ≤ i ∧
    fold_left
      (λ (counts : Z * Z) (p : gmap string bool * list string),
         if has_same_answer (worker_only_selected p.1) p.2
         then (counts.1 + 1, counts.2)
         else (counts.1, counts.2 + 1))
      pairs (c0, i0) = (c0 + c, i0 + i).
Proof.
  revert c0 i0. induction pairs as [|[wa ca] pairs IH]; intros c0 i0.
  - exists 0, 0. split; [constructor |]. simpl. repeat split; try lia. f_equal; lia.
  - simpl. destruct (has_same_answer (worker_only_selected wa) ca) eqn:E.
    + destruct (IH (c0 + 1) i0) as (c & i & Ht & Hc & Hi & ->).
      exists (c + 1), i. repeat split; try lia.
      * constructor; [by apply has_same_answer_selected | done].
      * f_equal; lia.
    + destruct (IH c0 (i0 + 1)) as (c & i & Ht & Hc & Hi & ->).
      exists c, (i + 1). repeat split; try lia.
      * constructor; [| done]. intros H%has_same_answer_selected. congruence.
      * f_equal; lia.
Qed.

Lemma tally_functional right pairs c i c' i' :
  tally right pairs c i → tally right pairs c' i' → c = c' ∧ i = i'.
Proof.
  intros H. revert c' i'. induction H; intros c' i' H'; inversion H'; subst;
    try done; try (edestruct IHtally as [-> ->]; [eassumption | done]).
Qed.

(** C1, as amended.  The worker passes exactly when the number of right
    turns is at least [min_correct] and the number of wrong turns at most
    [max_incorrect], over the turns paired by [zip]; a turn is right
    exactly when the worker's true labels are a rearrangement of the
    reference list, that is, when the reference list has no repeated
    label and names exactly the labels marked true. *)
Theorem check_onboarding_answers_passes self worker_answers :
  (∀ worker_answer correct_answer,
     has_same_answer (worker_only_selected worker_answer) correct_answer = true ↔
     worker_only_selected worker_answer ≡ₚ correct_answer) ∧
  (∀ worker_answer correct_answer,
     worker_only_selected worker_answer ≡ₚ correct_answer ↔
     right_turn worker_answer correct_answer) ∧
  ∃ number_correct number_incorrect,
    tally right_turn
      (zip worker_answers
           ((λ t : TurnEntry * TurnEntry, answers t.2) <$> dialog (onboard_task_data self)))
      number_correct number_incorrect ∧
    (check_onboarding_answers self worker_answers = true ↔
     number_correct >= min_correct self ∧ number_incorrect ≤ max_incorrect self).
Proof.
  split; [intros; apply has_same_answer_Permutation |].
  split.
  { intros wa ca. rewrite <- has_same_answer_Permutation. apply has_same_answer_selected. }
  unfold check_onboarding_answers, count_answers.
  set (pairs := zip _ _).
  destruct (count_answers_tally pairs 0 0) as (c & i & Ht & Hc & Hi & ->).
  exists c, i. split; [done |].
  rewrite andb_true_iff, !bool_decide_eq_true. simpl. lia.
Qed.

(** C1, as stated, fails: the label sets of the only turn are equal, so by
    set equality one turn is right and none wrong, within the thresholds,
    and yet the worker does not pass. *)
Lemma check_onboarding_answers_repeated_label :
  tally same_label_set [(marked_a, ["a"; "a"])] 1 0 ∧
  1 >= min_correct repeated_label_world ∧
  0 ≤ max_incorrect repeated_label_world ∧
  check_onboarding_answers repeated_label_world [marked_a] = false.
Proof.
  split; [| split; [| split]].
  - apply (tally_right same_label_set marked_a ["a"; "a"] [] 0 0); [| constructor].
    intros key. unfold marked_a. rewrite lookup_singleton_Some, !elem_of_cons, elem_of_nil.
    split; [intros [-> | [-> | []]]; done | intros [<- _]; by left].
  - simpl. lia.
  - simpl. lia.
  - vm_compute. reflexivity.
Qed.
End onboarding_answers.

(** ** Onboarding sessions *)

Section onboarding_session.
Import TurnAnnotationsOnboardWorld.
Variables ONBOARD_FAIL ONBOARD_SUCCESS : string.

Lemma check_onboarding_answers_nil self :
  check_onboarding_answers self [] = true ↔ min_correct self ≤ 0 ≤ max_incorrect self.
Proof.
  unfold check_onboarding_answers. simpl.
  rewrite andb_true_iff, !bool_decide_eq_true. lia.
Qed.

(** A [task_data] without the [annotations] key is not guarded. *)
Lemma handle_act_missing_annotations act td self :
  task_data act = Some td → annotations td = None →
  _handle_act ONBOARD_FAIL ONBOARD_SUCCESS act self = (Raise KeyError, self).
Proof. intros Htd Han. unfold _handle_act. rewrite Htd, Han. reflexivity. Qed.

(** C7, as amended.  A submission with no [task_data] gets the fail
    status, raises nothing and is granted nothing, whatever the
    thresholds.  A submission with an empty list of annotations has no
    right and no wrong turn: it gets the fail status, and the failed
    qualification, unless [min_correct <= 0 <= max_incorrect], so always
    when [min_correct] is positive.  A [task_data] without the
    [annotations] key raises [KeyError]. *)
Theorem handle_act_no_answers act self :
  (task_data act = None →
   _handle_act ONBOARD_FAIL ONBOARD_SUCCESS act self = (Ok ONBOARD_FAIL, self)) ∧
  (∀ td, task_data act = Some td → annotations td = Some [] →
     _handle_act ONBOARD_FAIL ONBOARD_SUCCESS act self =
       if bool_decide (min_correct self ≤ 0 ≤ max_incorrect self)
       then (Ok ONBOARD_SUCCESS, set_episodeDone true self)
       else (Ok ONBOARD_FAIL,
             emit (GrantQualification (onboarding_qualification self) 0) self)) ∧
  (∀ td, task_data act = Some td → annotations td = Some [] →
     0 < min_correct self →
     _handle_act ONBOARD_FAIL ONBOARD_SUCCESS act self =
       (Ok ONBOARD_FAIL,
        emit (GrantQualification (onboarding_qualification self) 0) self)) ∧
  (∀ td, task_data act = Some td → annotations td = None →
     _handle_act ONBOARD_FAIL ONBOARD_SUCCESS act self = (Raise KeyError, self)).
Proof.
  assert (Hempty : ∀ td, task_data act = Some td → annotations td = Some [] →
     _handle_act ONBOARD_FAIL ONBOARD_SUCCESS act self =
       if bool_decide (min_correct self ≤ 0 ≤ max_incorrect self)
       then (Ok ONBOARD_SUCCESS, set_episodeDone true self)
       else (Ok ONBOARD_FAIL,
             emit (GrantQualification (onboarding_qualification self) 0) self)).
  { intros td Htd Han. unfold _handle_act. rewrite Htd, Han. run_method.
    destruct (check_onboarding_answers self []) eqn:E.
    - apply check_onboarding_answers_nil in E. by rewrite bool_decide_eq_true_2.
    - rewrite bool_decide_eq_false_2; [done |].
      intros H. apply check_onboarding_answers_nil in H. congruence. }
  split; [| split; [exact Hempty | split]].
  - intros Hnone. unfold _handle_act. by rewrite Hnone.
  - intros td Htd Han Hmin. rewrite (Hempty td Htd Han).
    rewrite bool_decide_eq_false_2 by lia. done.
  - intros td. apply handle_act_missing_annotations.
Qed.

(** The status a session ends with: the decision of [_handle_act] when
    there is one, and the initial ['DISCONNECT'] when the worker's
    message never came or its handling raised. *)
Lemma parley_status reply later self :
  status (parley ONBOARD_FAIL ONBOARD_SUCCESS reply later self).2 =
  match reply with
  | Raise _ => status self
  | Ok act =>
      match (_handle_act ONBOARD_FAIL ONBOARD_SUCCESS act self).1 with
      | Ok st => st
      | Raise _ => status self
      end
  end.
Proof.
  assert (Hhold : ∀ l w, status (hold l w).2 = status w).
  { induction l as [|r l IH]; intros w; [done |].
    cbn [hold]. run_method. destruct r; [apply IH | done]. }
  assert (Hact : ∀ act w, status (_handle_act ONBOARD_FAIL ONBOARD_SUCCESS act w).2 = status w).
  { intros act w. unfold _handle_act. destruct (task_data act) as [td|]; [| done].
    destruct (annotations td) as [wa|]; [| done]. run_method.
    destruct (check_onboarding_answers w wa); done. }
  unfold parley. destruct reply as [act | e]; [| done]. run_method.
  specialize (Hact act self).
  destruct (_handle_act ONBOARD_FAIL ONBOARD_SUCCESS act self) as [[st | e] w] eqn:E;
    cbn in *; [| done].
  case_bool_decide; [| done]. rewrite Hhold. done.
Qed.

(** C10.  A new session has the status ['DISCONNECT']; [shutdown] counts
    the session under its status and changes no other key of the
    histogram; and a session that never reached a decision is counted
    under ['DISCONNECT']. *)
Theorem shutdown_counts_status opt reply later onboard_statistics :
  status (__init__ opt) = "DISCONNECT" ∧
  (∀ self key,
     shutdown self onboard_statistics !! key =
     if decide (key = status self)
     then Some (default 0 (onboard_statistics !! key) + 1)
     else onboard_statistics !! key) ∧
  let self := (parley ONBOARD_FAIL ONBOARD_SUCCESS reply later (__init__ opt)).2 in
  let decision :=
    match reply with
    | Raise _ => None
    | Ok act =>
        match (_handle_act ONBOARD_FAIL ONBOARD_SUCCESS act (__init__ opt)).1 with
        | Ok st => Some st
        | Raise _ => None
        end
    end in
  status self = default "DISCONNECT" decision ∧
  shutdown self onboard_statistics !! default "DISCONNECT" decision =
    Some (default 0 (onboard_statistics !! default "DISCONNECT" decision) + 1).
Proof.
  assert (Hshutdown : ∀ self key,
     shutdown self onboard_statistics !! key =
     if decide (key = status self)
     then Some (default 0 (onboard_statistics !! key) + 1)
     else onboard_statistics !! key).
  { intros self key. unfold shutdown. case_bool_decide as Hdom.
    - apply not_elem_of_dom in Hdom.
      rewrite lookup_total_insert_eq. case_decide as Hk.
      + subst key. rewrite lookup_insert_eq, Hdom. done.
      + rewrite !lookup_insert_ne by done. done.
    - apply elem_of_dom in Hdom as [n Hn].
      rewrite (lookup_total_correct _ _ _ Hn). case_decide as Hk.
      + subst key. rewrite lookup_insert_eq, Hn. done.
      + rewrite lookup_insert_ne by done. done. }
  split; [done |]. split; [exact Hshutdown |].
  cbv zeta. rewrite parley_status.
  assert (Hst : match reply with
    | Raise _ => status (__init__ opt)
    | Ok act =>
        match (_handle_act ONBOARD_FAIL ONBOARD_SUCCESS act (__init__ opt)).1 with
        | Ok st => st
        | Raise _ => status (__init__ opt)
        end
    end = default "DISCONNECT" match reply with
    | Raise _ => None
    | Ok act =>
        match (_handle_act ONBOARD_FAIL ONBOARD_SUCCESS act (__init__ opt)).1 with
        | Ok st => Some st
        | Raise _ => None
        end
    end).
  { destruct reply as [act|]; [| done].
    destruct (_handle_act ONBOARD_FAIL ONBOARD_SUCCESS act (__init__ opt)).1; done. }
  split; [exact Hst |].
  rewrite Hshutdown. rewrite parley_status, Hst. by rewrite decide_True.
Qed.
End onboarding_session.

(** ** The chat loop *)

Section chat_loop.
Import TurnAnnotationsChatWorld.

Lemma py_index_last {A} (l : list A) (x : A) :
  py_index (l ++ [x]) (-1) = Some (length l).
Proof.
  unfold py_index. rewrite length_app. cbn [length].
  repeat case_bool_decide; try lia. f_equal. lia.
Qed.

Lemma py_update_last {A} (l : list A) (x : A) (f : A → A) :
  py_update (l ++ [x]) (-1) f = Ok (l ++ [f x]).
Proof.
  unfold py_update. rewrite py_index_last. f_equal.
  rewrite alter_app_r_alt by lia. by rewrite Nat.sub_diag.
Qed.

Lemma py_update_first {A} (x : A) (l : list A) (f : A → A) :
  py_update (x :: l) 0 f = Ok (f x :: l).
Proof.
  unfold py_update, py_index. cbn [length].
  repeat case_bool_decide; try lia; done.
Qed.

Lemma py_update_fmap {A B} (g : A → B) (f : A → A) (l l' : list A) i :
  (∀ x, g (f x) = g x) → py_update l i f = Ok l' → g <$> l' = g <$> l.
Proof.
  intros Hg. unfold py_update. destruct (py_index l i) as [j|]; [| done].
  intros [= <-].
  apply list_eq. intros k. rewrite !list_lookup_fmap.
  destruct (decide (j = k)) as [->|].
  - rewrite list_lookup_alter_eq. destruct (l !! k); simpl; by rewrite ?Hg.
  - by rewrite list_lookup_alter_ne.
Qed.

(** A message with a final rating ends the chat; the problem data it
    carries goes to [dialog[idx - 1]] once the turn index is past
    [num_turns]. *)
Lemma side_final idx act r self :
  chat_done self = false → final_rating_of act = Some r →
  side idx (Ok act) self =
    if bool_decide (task_turn_idx self > num_turns self) then
      match problem_data_of act with
      | Raise e => (Raise e, set_chat_done true self)
      | Ok p =>
          match py_update (dialog self) (idx - 1) (set_problem_data p) with
          | Ok d => (Ok true, set_dialog d (set_chat_done true self))
          | Raise e => (Raise e, set_chat_done true self)
          end
      end
    else (Ok true, set_chat_done true self).
Proof.
  intros Hdone Hr. unfold side, __add_problem_data_to_utterance. run_method.
  rewrite Hdone, Hr. simpl.
  case_bool_decide; [| done].
  destruct (problem_data_of act) as [p|e]; [| done]. simpl.
  destruct (py_update (dialog self) (idx - 1) (set_problem_data p)); done.
Qed.

Lemma side_utterance idx act t self :
  chat_done self = false → final_rating_of act = None → act_text act = Some t →
  side idx (Ok act) self =
    let u := utterance_data idx act t in
    if bool_decide (idx = 0) then
      match problem_data_of act with
      | Raise e => (Raise e, dialog_append u self)
      | Ok p =>
          (Ok false,
           set_task_turn_idx (task_turn_idx self + 1)
             (bot_observe (Acted act)
                (set_dialog (dialog self ++ [set_problem_data p u]) self)))
      end
    else
      (Ok false,
       set_task_turn_idx (task_turn_idx self + 1)
         (agent_observe (Acted act) (dialog_append u self))).
Proof.
  intros Hdone Hr Ht. unfold side, __add_problem_data_to_utterance. run_method.
  rewrite Hdone, Hr, Ht. simpl.
  case_bool_decide as Hidx; [| done]. subst idx.
  destruct (problem_data_of act) as [p|e]; [| done]. simpl.
  rewrite py_update_last. done.
Qed.

Lemma said_set_problem_data p u : said (set_problem_data p u) = said u.
Proof. done. Qed.

(** Whatever a round of the loop does, the entries recorded so far stay,
    in their places. *)
Lemma side_prefix idx reply self :
  said <$> dialog self `prefix_of` said <$> dialog (side idx reply self).2.
Proof.
  unfold side, __add_problem_data_to_utterance. run_method.
  destruct (chat_done self); [done |].
  destruct reply as [act|e]; [| done].
  destruct (final_rating_of act) as [r|].
  - simpl. case_bool_decide; [| done].
    destruct (problem_data_of act) as [p|e]; [| done]. simpl.
    destruct (py_update _ _ _) as [d|e] eqn:E; [| done]. simpl.
    by rewrite (py_update_fmap said _ _ _ _ (said_set_problem_data p) E).
  - destruct (act_text act) as [t|]; [| done]. simpl.
    case_bool_decide as Hidx.
    + subst idx. change (0 - 1) with (-1).
      destruct (problem_data_of act) as [p|e]; simpl.
      * rewrite py_update_last. simpl. rewrite !fmap_app. by apply prefix_app_r.
      * rewrite fmap_app. by apply prefix_app_r.
    + simpl. rewrite fmap_app. by apply prefix_app_r.
Qed.

Lemma send_persona_frame self :
  (send_persona self).2 = self ∨
  ∃ m, send_persona self = (Ok tt, bot_observe (System m) self).
Proof.
  unfold send_persona. run_method.
  destruct (personas self) as [ps|]; [| by left].
  destruct (context_dataset (context_info self)) as [cd|]; [| by left].
  destruct (additional_context (context_info self)) as [ac|]; [| by left].
  destruct (_get_persona_utterance _ _ _ _ _) as [m|e]; [| by left].
  right. by exists m.
Qed.

Lemma start_bst_Ok self self' :
  start_bst self = (Ok tt, self') →
  ∃ t1 t2,
    person1_seed_utterance (context_info self) = Some t1 ∧
    person2_seed_utterance (context_info self) = Some t2 ∧
    dialog self' = dialog self ++ seed_pair self t1 t2 ∧
    task_turn_idx self' = task_turn_idx self ∧ chat_done self' = chat_done self.
Proof.
  unfold start_bst. run_method.
  destruct (person1_seed_utterance (context_info self)) as [t1|]; [| done].
  destruct (person2_seed_utterance (context_info self)) as [t2|]; [| done].
  intros [= <-]. exists t1, t2. simpl. by rewrite <- app_assoc.
Qed.

Lemma start_hi_Ok bot_reply self self' :
  start_hi bot_reply self = (Ok tt, self') →
  ∃ first_bot_act t i,
    bot_reply = Ok first_bot_act ∧
    act_text first_bot_act = Some t ∧ act_id first_bot_act = Some i ∧
    dialog self' = dialog self ++ greeting_pair self t i ∧
    task_turn_idx self' = task_turn_idx self ∧ chat_done self' = chat_done self.
Proof.
  unfold start_hi. run_method.
  destruct bot_reply as [act|e]; [| done].
  destruct (act_text act) as [t|] eqn:Ht; [| done].
  destruct (act_id act) as [i|] eqn:Hi; [| done].
  intros [= <-]. exists act, t, i. simpl. by rewrite <- app_assoc.
Qed.

Lemma persona_step_frame self r self' :
  (if include_persona (opt self) then send_persona else mret tt) self = (r, self') →
  self' = self ∨ ∃ m, r = Ok tt ∧ self' = bot_observe (System m) self.
Proof.
  destruct (include_persona (opt self)).
  - intros E. destruct (send_persona_frame self) as [H | [m H]].
    + left. by rewrite E in H.
    + right. exists m. rewrite E in H. by injection H.
  - intros [= <- <-]. by left.
Qed.

Lemma first_turn_Ok bot_reply self self' :
  first_turn bot_reply self = (Ok tt, self') →
  task_turn_idx self' = task_turn_idx self + 1 ∧
  chat_done self' = chat_done self ∧
  ((conversation_start_mode (opt self) = "bst" ∧
    ∃ t1 t2,
      person1_seed_utterance (context_info self) = Some t1 ∧
      person2_seed_utterance (context_info self) = Some t2 ∧
      dialog self' = dialog self ++ seed_pair self t1 t2) ∨
   (conversation_start_mode (opt self) = "hi" ∧
    ∃ first_bot_act t i,
      bot_reply = Ok first_bot_act ∧
      act_text first_bot_act = Some t ∧ act_id first_bot_act = Some i ∧
      dialog self' = dialog self ++ greeting_pair self t i)).
Proof.
  unfold first_turn. run_method.
  destruct ((if include_persona (opt self) then send_persona else λ s, (Ok tt, s)) self)
    as [[[]|e] w1] eqn:E; [| done].
  assert (Hframe : opt w1 = opt self ∧ context_info w1 = context_info self ∧
                   dialog w1 = dialog self ∧ task_turn_idx w1 = task_turn_idx self ∧
                   chat_done w1 = chat_done self ∧ agent_id w1 = agent_id self ∧
                   bot_id w1 = bot_id self).
  { apply persona_step_frame in E as [-> | (m & _ & ->)]; done. }
  destruct Hframe as (Ho & Hc & Hd & Hi & Hdone & Ha & Hb).
  case_bool_decide as Hbst; [| case_bool_decide as Hhi].
  - destruct (start_bst w1) as [[[]|e] w2] eqn:E2; [| done].
    intros [= <-]. apply start_bst_Ok in E2 as (t1 & t2 & H1 & H2 & Hd2 & Hi2 & Hdone2).
    simpl. split; [lia |]. split; [congruence |]. left. split; [done |].
    exists t1, t2. rewrite <- Hc, <- Hd. repeat split; try done.
    rewrite Hd2. unfold seed_pair. by rewrite Ha, Hb.
  - destruct (start_hi bot_reply w1) as [[[]|e] w2] eqn:E2; [| done].
    intros [= <-].
    apply start_hi_Ok in E2 as (act & t & i & Hr & Ht & Hid & Hd2 & Hi2 & Hdone2).
    simpl. split; [lia |]. split; [congruence |]. right. split; [done |].
    exists act, t, i. rewrite <- Hd. repeat split; try done.
    rewrite Hd2. unfold greeting_pair. by rewrite Ha.
  - done.
Qed.


Lemma parley_Ok human_reply bot_reply self self' :
  parley human_reply bot_reply self = (Ok tt, self') →
  (task_turn_idx self = 0 ∧ first_turn bot_reply self = (Ok tt, self')) ∨
  (task_turn_idx self ≠ 0 ∧
   (side 0 human_reply self = (Ok true, self') ∨
    ∃ self1 r, side 0 human_reply self = (Ok false, self1) ∧
               side 1 bot_reply self1 = (Ok r, self'))).
Proof.
  unfold parley. run_method. case_bool_decide as Hidx.
  - intros H. left. split; [done |]. by destruct (first_turn bot_reply self) as [[[]|] ?].
  - intros H. right. split; [done |].
    destruct (side 0 human_reply self) as [[[]|e] w1]; [| | done].
    + left. by injection H as <-.
    + right. exists w1. destruct (side 1 bot_reply w1) as [[r|e] w2]; [| done].
      exists r. by injection H as <-.
Qed.

Lemma first_turn_prefix bot_reply self :
  said <$> dialog self `prefix_of` said <$> dialog (first_turn bot_reply self).2.
Proof.
  unfold first_turn. run_method.
  destruct ((if include_persona (opt self) then send_persona else λ s, (Ok tt, s)) self)
    as [[[]|e] w1] eqn:E.
  2:{ apply persona_step_frame in E as [-> | (m & _ & ->)]; done. }
  assert (Hd : dialog w1 = dialog self).
  { apply persona_step_frame in E as [-> | (m & _ & ->)]; done. }
  rewrite <- Hd. clear E Hd.
  case_bool_decide; [| case_bool_decide]; [| | done].
  - unfold start_bst. run_method.
    destruct (person1_seed_utterance (context_info w1)); [| done].
    destruct (person2_seed_utterance (context_info w1)); [| done].
    simpl. rewrite !fmap_app, <- app_assoc. by apply prefix_app_r.
  - unfold start_hi. run_method.
    destruct bot_reply as [act|e]; simpl; [| rewrite fmap_app; by apply prefix_app_r].
    destruct (act_text act); simpl; [| rewrite fmap_app; by apply prefix_app_r].
    destruct (act_id act); simpl; [| rewrite fmap_app; by apply prefix_app_r].
    rewrite !fmap_app, <- app_assoc. by apply prefix_app_r.
Qed.

Lemma parley_prefix human_reply bot_reply self :
  said <$> dialog self `prefix_of`
  said <$> dialog (parley human_reply bot_reply self).2.
Proof.
  unfold parley. run_method. case_bool_decide.
  - apply first_turn_prefix.
  - pose proof (side_prefix 0 human_reply self) as H0.
    destruct (side 0 human_reply self) as [[[]|e] w1]; simpl in *; [done | | done].
    pose proof (side_prefix 1 bot_reply w1) as H1.
    destruct (side 1 bot_reply w1) as [[r|e] w2]; simpl in *; by etrans.
Qed.




End chat_loop.

Section chat_properties.
Import TurnAnnotationsChatWorld.

Lemma run_reachable start replies self self' :
  reachable start self → run replies self = (Ok tt, self') →
  reachable start self'.
Proof.
  revert self. induction replies as [|[h b] replies IH]; intros self Hreach; simpl.
  - by intros [= <-].
  - destruct (episode_done self); [by intros [= <-] |].
    destruct (parley h b self) as [[[]|e] w1] eqn:E; [| done].
    apply IH. by eapply reachable_parley.
Qed.


(** A message with a final rating ends the chat, from either side, and
    leaves the turn index as it is.  When the turn index is not past
    [num_turns], nothing else changes: the problem data of the message
    is dropped.  When it is, the problem data goes to
    [dialog[idx - 1]]: for the human's message that is the last entry of
    the dialog, the one just before the message; for the bot's message
    it is the first entry of the dialog.  In the main loop [parley] does
    just this with the human's message. *)
Theorem final_rating_ends_chat idx act r bot_reply self :
  chat_done self = false →
  final_rating_of act = Some r →
  chat_done (side idx (Ok act) self).2 = true ∧
  task_turn_idx (side idx (Ok act) self).2 = task_turn_idx self ∧
  (task_turn_idx self ≤ num_turns self →
   side idx (Ok act) self = (Ok true, set_chat_done true self)) ∧
  (task_turn_idx self > num_turns self → idx = 0 →
   ∀ p d u,
     problem_data_of act = Ok p → dialog self = d ++ [u] →
     side idx (Ok act) self =
       (Ok true, set_dialog (d ++ [set_problem_data p u]) (set_chat_done true self))) ∧
  (task_turn_idx self > num_turns self → idx = 1 →
   ∀ p u d,
     problem_data_of act = Ok p → dialog self = u :: d →
     side idx (Ok act) self =
       (Ok true, set_dialog (set_problem_data p u :: d) (set_chat_done true self))) ∧
  (task_turn_idx self ≠ 0 →
   parley (Ok act) bot_reply self =
     (match (side 0 (Ok act) self).1 with Ok _ => Ok tt | Raise e => Raise e end,
      (side 0 (Ok act) self).2)).
Proof.
  intros Hdone Hr. rewrite (side_final _ _ _ _ Hdone Hr).
  split; [| split; [| split; [| split; [| split]]]].
  - case_bool_decide; [| done]. destruct (problem_data_of act); [| done].
    by destruct (py_update _ _ _).
  - case_bool_decide; [| done]. destruct (problem_data_of act); [| done].
    by destruct (py_update _ _ _).
  - intros Hle. rewrite bool_decide_eq_false_2 by lia. done.
  - intros Hgt -> p d u Hp Hd. rewrite bool_decide_eq_true_2 by lia.
    rewrite Hp, Hd. change (0 - 1) with (-1). by rewrite py_update_last.
  - intros Hgt -> p u d Hp Hd. rewrite bool_decide_eq_true_2 by lia.
    rewrite Hp, Hd. change (1 - 1) with 0. by rewrite py_update_first.
  - intros Hidx. unfold parley. run_method.
    rewrite bool_decide_eq_false_2 by done.
    rewrite (side_final _ _ _ _ Hdone Hr).
    case_bool_decide; [| done]. destruct (problem_data_of act); [| done].
    by destruct (py_update _ _ _).
Qed.

Lemma prefix_append s1 s : String.prefix s1 s = true ↔ ∃ b, s = s1 +:+ b.
Proof.
  revert s. induction s1 as [|a s1 IH]; intros s.
  - split; [intros _; by exists s | by destruct s].
  - destruct s as [|c s].
    + split; [done | intros [b H]; discriminate H].
    + change (String.prefix (String a s1) (String c s))
        with (if Ascii.ascii_dec a c then String.prefix s1 s else false).
      destruct (Ascii.ascii_dec a c) as [->|Hne].
      * rewrite IH. split; intros [b H]; exists b.
        -- by rewrite H.
        -- by injection H.
      * split; [done |]. intros [b H]. injection H as H1 H2. congruence.
Qed.

Lemma prefix_br s : String.prefix br s = true ↔ ∃ b, s = br +:+ b.
Proof. apply prefix_append. Qed.

Lemma split_br_0_unfold c s :
  split_br_0 (String c s) =
  if String.prefix br (String c s) then "" else String c (split_br_0 s).
Proof. done. Qed.

Lemma split_br_0_prefix s : String.prefix br s = true → split_br_0 s = "".
Proof.
  intros H. destruct s as [|c s]; [done |]. by rewrite split_br_0_unfold, H.
Qed.

(** [split_br_0] cuts at the first marker: what it gives is followed by
    a marker, and no marker starts earlier. *)
Lemma split_br_0_marker a b :
  ∃ b', a +:+ br +:+ b = split_br_0 (a +:+ br +:+ b) +:+ br +:+ b' ∧
        (String.length (split_br_0 (a +:+ br +:+ b)) ≤ String.length a)%nat.
Proof.
  induction a as [|c a IH].
  - exists b. change ("" +:+ br +:+ b) with (br +:+ b).
    rewrite split_br_0_prefix by (apply prefix_br; by exists b).
    split; [done | simpl; lia].
  - change (String c a +:+ br +:+ b) with (String c (a +:+ br +:+ b)).
    rewrite split_br_0_unfold.
    destruct (String.prefix br (String c (a +:+ br +:+ b))) eqn:E.
    + apply prefix_br in E as [b' E]. exists b'. split; [exact E | simpl; lia].
    + destruct IH as (b' & IH1 & IH2). exists b'. split.
      * change (String c (split_br_0 (a +:+ br +:+ b)) +:+ br +:+ b')
          with (String c (split_br_0 (a +:+ br +:+ b) +:+ br +:+ b')).
        f_equal. exact IH1.
      * simpl. lia.
Qed.

Lemma split_br_0_no_marker s :
  (∀ a b, s ≠ a +:+ br +:+ b) → split_br_0 s = s.
Proof.
  induction s as [|c s IH]; intros Hno; [done |].
  rewrite split_br_0_unfold.
  destruct (String.prefix br (String c s)) eqn:E.
  - apply prefix_br in E as [b E]. by destruct (Hno "" b).
  - f_equal. apply IH. intros a b ->. by destruct (Hno (String c a) b).
Qed.

(** C9.  In the main loop an utterance of either side, the human's as
    well as the bot's, is recorded with its text cut at the first
    ['<br>']: the recorded text is the whole text when it has no marker,
    and else the part before the first one.  The first reply of the bot
    in the greeting-only start is recorded as it is: the first turn
    returns with it when no persona is sent, and whenever it returns the
    recorded text is the reply's. *)
Theorem break_marker_cut :
  (∀ idx act t self,
     chat_done self = false → final_rating_of act = None → act_text act = Some t →
     ∃ u, agent_idx u = idx ∧ text u = split_br_0 t ∧
          said <$> dialog (side idx (Ok act) self).2 = (said <$> dialog self) ++ [said u]) ∧
  (∀ t, (∀ a b, t ≠ a +:+ br +:+ b) → split_br_0 t = t) ∧
  (∀ a b, ∃ b',
     a +:+ br +:+ b = split_br_0 (a +:+ br +:+ b) +:+ br +:+ b' ∧
     (String.length (split_br_0 (a +:+ br +:+ b)) ≤ String.length a)%nat) ∧
  (∀ human_reply first_bot_act t i self,
     task_turn_idx self = 0 → include_persona (opt self) = false →
     conversation_start_mode (opt self) = "hi" →
     act_text first_bot_act = Some t → act_id first_bot_act = Some i →
     ∃ self', parley human_reply (Ok first_bot_act) self = (Ok tt, self') ∧
              dialog self' = dialog self ++ greeting_pair self t i) ∧
  (∀ human_reply bot_reply self self',
     task_turn_idx self = 0 → conversation_start_mode (opt self) = "hi" →
     parley human_reply bot_reply self = (Ok tt, self') →
     ∃ first_bot_act t i,
       bot_reply = Ok first_bot_act ∧
       act_text first_bot_act = Some t ∧ act_id first_bot_act = Some i ∧
       dialog self' = dialog self ++ greeting_pair self t i).
Proof.
  split; [| split; [| split; [| split]]].
  - intros idx act t self Hdone Hr Ht. exists (utterance_data idx act t).
    split; [done |]. split; [done |].
    rewrite (side_utterance _ _ _ _ Hdone Hr Ht). cbv zeta.
    case_bool_decide; [destruct (problem_data_of act) |]; simpl; by rewrite !fmap_app.
  - apply split_br_0_no_marker.
  - apply split_br_0_marker.
  - intros h act t i self Hidx Hp Hmode Ht Hi.
    unfold parley, first_turn, start_hi. run_method.
    rewrite bool_decide_eq_true_2 by done. rewrite Hp, Hmode, Ht, Hi. simpl.
    eexists. split; [reflexivity |]. simpl. by rewrite <- app_assoc.
  - intros h b self self' Hidx Hmode [[_ H] | [? _]]%parley_Ok; [| done].
    apply first_turn_Ok in H as (_ & _ & [[Hbst _] | [_ H]]); [| done].
    rewrite Hmode in Hbst. done.
Qed.

Lemma py_join_Some sep (l : list string) :
  py_join sep (Some <$> l) = Ok (String.concat sep l).
Proof. unfold py_join. by rewrite mapM_fmap_Some. Qed.

(** For the bot, only the tag ['wizard_of_wikipedia'] adds anything to
    the persona; no tag is refused. *)
Lemma persona_utterance_for_bot n persona_strings cd ac :
  cd ≠ Some "wizard_of_wikipedia" →
  _get_persona_utterance n persona_strings cd ac true =
  Ok (String.concat NL ((λ str_, "your persona: " +:+ str_) <$> persona_strings)).
Proof.
  intros Hcd. unfold _get_persona_utterance.
  rewrite bool_decide_eq_false_2 by done. rewrite app_nil_r.
  rewrite <- py_join_Some. f_equal. by rewrite <- list_fmap_compose.
Qed.

(** C6.  A start mode that is neither ['bst'] nor ['hi'] is fatal: the
    first turn raises, records nothing and leaves the turn index at 0,
    and nothing in the world tries again; the error is the [ValueError]
    of the mode on every input that gets to it, that is, unless sending
    the persona raised before it.  A context dataset that is not known
    raises [ValueError] on every input that gets to that branch, the one
    where the persona text is made for the human ([is_bot] false); the
    branch for the bot has no such error and only adds no context
    line. *)
Theorem unrecognized_configuration :
  (∀ human_reply bot_reply self,
     task_turn_idx self = 0 →
     conversation_start_mode (opt self) ≠ "bst" →
     conversation_start_mode (opt self) ≠ "hi" →
     ∃ e, (parley human_reply bot_reply self).1 = Raise e ∧
          dialog (parley human_reply bot_reply self).2 = dialog self ∧
          task_turn_idx (parley human_reply bot_reply self).2 = 0 ∧
          (e = ValueError ∨
           include_persona (opt self) = true ∧ (send_persona self).1 = Raise e)) ∧
  (∀ n persona_strings cd ac,
     cd ≠ Some "convai2" → cd ≠ Some "empathetic_dialogues" →
     cd ≠ Some "wizard_of_wikipedia" →
     _get_persona_utterance n persona_strings cd ac false = Raise ValueError) ∧
  (∀ n persona_strings cd ac,
     cd ≠ Some "wizard_of_wikipedia" →
     _get_persona_utterance n persona_strings cd ac true =
     Ok (String.concat NL ((λ str_, "your persona: " +:+ str_) <$> persona_strings))).
Proof.
  split; [| split].
  - intros h b self Hidx Hbst Hhi. unfold parley, first_turn. run_method.
    rewrite bool_decide_eq_true_2 by done.
    rewrite (bool_decide_eq_false_2 _ Hbst), (bool_decide_eq_false_2 _ Hhi).
    destruct (include_persona (opt self)) eqn:Hp.
    + destruct (send_persona_frame self) as [H | [m H]].
      * destruct (send_persona self) as [[[]|e] w1]; simpl in *; subst w1.
        -- exists ValueError. repeat split; try done. by left.
        -- exists e. repeat split; try done. by right.
      * rewrite H. exists ValueError. repeat split; try done. by left.
    + exists ValueError. repeat split; try done. by left.
  - intros n ps cd ac H1 H2 H3. unfold _get_persona_utterance.
    by rewrite !bool_decide_eq_false_2.
  - apply persona_utterance_for_bot.
Qed.
End chat_properties.

(** ** The choice of the bot *)

Section bot_choice.

Lemma head_stable_insert {A} (before : A → A → bool) x l :
  head (stable_insert before x l) =
  Some (match head l with
        | Some y => if before x y then x else y
        | None => x
        end).
Proof. destruct l as [|y l]; simpl; [done |]. by destruct (before x y). Qed.

Lemma head_stable_sort {A} (before : A → A → bool) l :
  head (stable_sort before l) = first_of before l.
Proof.
  induction l as [|x l IH]; [done |].
  change (stable_sort before (x :: l))
    with (stable_insert before x (stable_sort before l)).
  by rewrite head_stable_insert, IH.
Qed.

Lemma first_of_cons {A} (before : A → A → bool) x l :
  first_of before (x :: l) =
  Some (match first_of before l with
        | Some y => if before x y then x else y
        | None => x
        end).
Proof. done. Qed.

Lemma first_of_nil_inv {A} (before : A → A → bool) l :
  first_of before l = None → l = [].
Proof. by destruct l. Qed.

(** With the keys in falling order, the first of the sorted list has a
    greatest key, and is the earliest such in the list. *)
Lemma first_of_greatest (l : list (string * Z)) best :
  first_of (λ x y : string * Z, bool_decide (y.2 ≤ x.2)) l = Some best →
  ∃ i : nat, l !! i = Some best ∧
    ∀ (j : nat) y, l !! j = Some y → y.2 ≤ best.2 ∧ ((j < i)%nat → y.2 < best.2).
Proof.
  revert best. induction l as [|x l IH]; intros best; [done |].
  rewrite first_of_cons. intros [= Hbest].
  destruct (first_of _ l) as [y|] eqn:E.
  - destruct (IH y eq_refl) as (i & Hi & Hmax). case_bool_decide as Hle; subst best.
    + exists 0%nat. split; [done |]. intros [|j] z Hz; simpl in Hz.
      * injection Hz as <-. split; [lia | lia].
      * destruct (Hmax j z Hz) as [Hzy _]. split; [lia | lia].
    + exists (S i). split; [done |]. intros [|j] z Hz; simpl in Hz.
      * injection Hz as <-. split; [lia | lia].
      * destruct (Hmax j z Hz) as [Hzy Hlt]. split; [done |]. intros ?. apply Hlt. lia.
  - apply first_of_nil_inv in E as ->. subst best.
    exists 0%nat. split; [done |]. intros [|j] z Hz; [| done].
    injection Hz as <-. split; [lia | lia].
Qed.

Lemma py_getitem_0 {A} (l : list A) :
  py_getitem l 0 = match head l with Some x => Ok x | None => Raise IndexError end.
Proof.
  unfold py_getitem, py_index. destruct l as [|x l]; [done |].
  cbn [length]. repeat case_bool_decide; try lia. done.
Qed.

(** C8.  When some bot is asked for and each has its counter, the choice
    takes a bot whose need, the conversations asked for less those
    counted, is greatest, the first such in the order of the mapping,
    and raises its counter by one. *)
Theorem make_world_chooses_greatest_need conversations_needed run_statistics :
  conversations_needed ≠ [] →
  (∀ m c, (m, c) ∈ conversations_needed → is_Some (run_statistics !! m)) →
  ∃ (i : nat) model_name c n,
    conversations_needed !! i = Some (model_name, c) ∧
    run_statistics !! model_name = Some n ∧
    make_world conversations_needed run_statistics =
      Ok (model_name, <[model_name := n + 1]> run_statistics) ∧
    ∀ (j : nat) m' c' n',
      conversations_needed !! j = Some (m', c') →
      run_statistics !! m' = Some n' →
      c' - n' ≤ c - n ∧ ((j < i)%nat → c' - n' < c - n).
Proof.
  intros Hne Hkeys. unfold make_world, remaining_counts_needed.
  set (f := λ mc : string * Z, n ← run_statistics !! mc.1; Some (mc.1, mc.2 - n)).
  assert (Hf : ∀ mc r, f mc = Some r ↔
                ∃ n, run_statistics !! mc.1 = Some n ∧ r = (mc.1, mc.2 - n)).
  { intros mc r. unfold f. rewrite bind_Some.
    split; intros (n & Hn & Hr); exists n; split; congruence. }
  destruct (mapM f conversations_needed) as [remaining|] eqn:E.
  2:{ apply eq_None_not_Some in E. destruct E. apply mapM_is_Some.
      apply Forall_forall. intros [m c] Hin. destruct (Hkeys m c Hin) as [n Hn].
      exists (m, c - n). apply Hf. by exists n. }
  apply mapM_Some in E.
  rewrite py_getitem_0, head_stable_sort.
  destruct (first_of _ remaining) as [best|] eqn:Hbest.
  2:{ apply first_of_nil_inv in Hbest as ->. apply Forall2_nil_inv_r in E. done. }
  apply first_of_greatest in Hbest as (i & Hi & Hmax).
  destruct (Forall2_lookup_r _ _ _ _ _ E Hi) as ([m c] & Hcn & Hfm).
  apply Hf in Hfm as (n & Hn & ->). simpl in *.
  exists i, m, c, n. rewrite Hn. do 3 (split; [done |]).
  intros j m' c' n' Hj Hn'.
  destruct (Forall2_lookup_l _ _ _ _ _ E Hj) as (y & Hy & Hfy).
  apply Hf in Hfy as (n'' & Hn'' & ->). simpl in *.
  assert (n'' = n') as -> by congruence. apply (Hmax _ _ Hy).
Qed.
End bot_choice.

(** ** The acceptability check of [save_data] *)

Section acceptability_check.
Import TurnAnnotationsChatWorld.
Variable check_messages : list string → bool → list string → string.

Lemma elem_of_human_texts d t :
  t ∈ human_texts d ↔ ∃ u, u ∈ d ∧ agent_idx u = 0 ∧ text u = t.
Proof.
  unfold human_texts. rewrite list_elem_of_fmap. split.
  - intros (u & -> & [Hu Hin]%list_elem_of_filter). by exists u.
  - intros (u & Hin & Hu & <-). exists u. split; [done |].
    by apply list_elem_of_filter.
Qed.

Lemma elem_of_violation_types mode rule :
  rule ∈ violation_types mode ↔
  rule ∈ ["min_words"; "all_caps"; "exact_match"; "safety"] ∨
  rule = "penalize_greetings" ∧ mode = "bst".
Proof.
  unfold violation_types. rewrite elem_of_app. case_bool_decide as Hmode.
  - rewrite list_elem_of_singleton. split; intros [H | H]; auto. by destruct H; right.
  - rewrite elem_of_nil. split; intros [H | H]; auto; [done | by destruct H].
Qed.

Lemma human_side_texts_iff d texts :
  human_side_texts d texts ↔ texts = human_texts d.
Proof.
  unfold human_texts. split.
  - intros H. induction H as [|u d texts Hu _ IH|u d texts Hu _ IH].
    + done.
    + by rewrite filter_cons_True, IH.
    + by rewrite filter_cons_False.
  - intros ->. induction d as [|u d IH]; [constructor |].
    destruct (decide (agent_idx u = 0)) as [Hu | Hu].
    + rewrite filter_cons_True by done. by constructor.
    + rewrite filter_cons_False by done. by constructor.
Qed.

(** C2, as amended.  With the check on, [save_data] gives the checker the
    texts of the entries of the human (agent 0), each of them and in
    the order of the dialog, and a rule set that holds the four standing
    rules and, exactly in the seeded (['bst']) mode, the rule that
    penalises greetings; with the check off there is no report. *)
Theorem save_data_violation_rules self :
  (∃ texts rules,
     human_side_texts (dialog self) texts ∧
     (∀ texts', human_side_texts (dialog self) texts' → texts' = texts) ∧
     (∀ rule, rule ∈ rules ↔
        rule ∈ ["min_words"; "all_caps"; "exact_match"; "safety"] ∨
        rule = "penalize_greetings" ∧ conversation_start_mode (opt self) = "bst") ∧
     acceptability_violations (save_data check_messages self) =
       (if check_acceptability self
        then Some (check_messages texts false rules)
        else None)) ∧
  acceptability_violations (save_data check_messages self) =
    (if check_acceptability self
     then Some (check_messages (human_texts (dialog self)) false
                  (violation_types (conversation_start_mode (opt self))))
     else None) ∧
  (∀ t, t ∈ human_texts (dialog self) ↔
        ∃ u, u ∈ dialog self ∧ agent_idx u = 0 ∧ text u = t) ∧
  (∀ rule, rule ∈ violation_types (conversation_start_mode (opt self)) ↔
     rule ∈ ["min_words"; "all_caps"; "exact_match"; "safety"] ∨
     rule = "penalize_greetings" ∧ conversation_start_mode (opt self) = "bst").
Proof.
  split.
  { exists (human_texts (dialog self)),
           (violation_types (conversation_start_mode (opt self))).
    split; [by apply human_side_texts_iff |].
    split; [intros texts'; apply human_side_texts_iff |].
    split; [intros rule; apply elem_of_violation_types | done]. }
  split; [done |]. split.
  - intros t. apply elem_of_human_texts.
  - intros rule. apply elem_of_violation_types.
Qed.
End acceptability_check.

(** ** The validation of an onboarding *)

Section validation.
Variable ONBOARD_SUCCESS : string.

Lemma py_getitem_second_to_last {A} (l : list A) :
  (2 ≤ length l)%nat →
  ∃ x, l !! (length l - 2)%nat = Some x ∧ py_getitem l (-2) = Ok x.
Proof.
  intros Hlen. destruct (lookup_lt_is_Some_2 l (length l - 2)%nat) as [x Hx]; [lia |].
  exists x. split; [done |]. unfold py_getitem, py_index.
  repeat case_bool_decide; try lia.
  replace (Z.to_nat (-2 + Z.of_nat (length l))) with (length l - 2)%nat by lia.
  by rewrite Hx.
Qed.

(** On a log that is empty or has two entries or more, the validation
    returns, and it accepts exactly when the entry before the last one
    carries the success status. *)
Lemma validate_onboarding_returns messages :
  length messages ≠ 1%nat →
  ∃ b, validate_onboarding ONBOARD_SUCCESS messages = Ok b ∧
       (b = true ↔
        ∃ packet payload,
          messages !! (length messages - 2)%nat = Some (Some packet) ∧
          data packet = Some payload ∧
          final_status payload = Some ONBOARD_SUCCESS).
Proof.
  intros Hlen. unfold validate_onboarding. case_bool_decide as Hnil.
  - exists false. split; [done |]. split; [done |].
    intros (packet & payload & H & _). apply length_zero_iff_nil in Hnil.
    by rewrite Hnil in H.
  - destruct (py_getitem_second_to_last messages) as (x & Hx & ->); [lia |].
    rewrite Hx. destruct x as [packet|].
    2:{ exists false. split; [done |]. split; [done |]. by intros (? & ? & ? & _). }
    destruct (data packet) as [payload|] eqn:Hd.
    2:{ exists false. split; [done |]. split; [done |].
        intros (? & ? & [= <-] & ? & _). congruence. }
    eexists. split; [done |]. rewrite bool_decide_eq_true. split.
    + intros Hs. by exists packet, payload.
    + intros (? & ? & [= <-] & ? & ?). congruence.
Qed.

(** C5 at the input where the code leaves it.  A log of one message has
    no entry before the last one: [messages[-2]] raises [IndexError], and
    the validation does not return [False]. *)
Theorem validate_onboarding_single_message packet :
  validate_onboarding ONBOARD_SUCCESS [packet] = Raise IndexError.
Proof. reflexivity. Qed.
End validation.

(** * Worked sessions *)

(** ** An onboarding *)

Section onboarding_examples.
Import TurnAnnotationsOnboardWorld.

(** C7 at a submission whose list of annotations is empty, with
    [min_correct] at 1. *)
Lemma handle_act_no_answers_witness :
  _handle_act "ONBOARD_FAIL" "ONBOARD_SUCCESS" empty_submission repeated_label_world
    = (Ok "ONBOARD_FAIL",
       emit (GrantQualification (onboarding_qualification repeated_label_world) 0)
            repeated_label_world).
Proof.
  refine (proj1 (proj2 (proj2 (handle_act_no_answers "ONBOARD_FAIL" "ONBOARD_SUCCESS"
                                  empty_submission repeated_label_world)))
                _ eq_refl eq_refl _).
  simpl. lia.
Defined.

(** C7, as stated, fails: this submission carries no answer, and handling
    it raises [KeyError]. *)
Lemma handle_act_raises_without_annotations :
  zero_submitted_answers submission_without_annotations ∧
  (_handle_act "ONBOARD_FAIL" "ONBOARD_SUCCESS" submission_without_annotations
     repeated_label_world).1 = Raise KeyError.
Proof.
  split; [| reflexivity].
  intros td worker_answers [= <-] Han. discriminate Han.
Qed.
End onboarding_examples.

(** ** A chat *)

Section chat_examples.
Import TurnAnnotationsChatWorld.

Lemma start_world_init mode dataset turns :
  __init__ (sample_opt mode turns) "Worker" "Bot" "bot_1"
           (Some (sample_context dataset)) = Ok (start_world mode dataset turns).
Proof. reflexivity. Qed.


End chat_examples.

Section chat_examples_2.
Import TurnAnnotationsChatWorld.

(** The human's rating after the first exchange, past [num_turns]. *)
Lemma final_rating_ends_chat_witness :
  chat_done (side 0 (Ok (rates "Worker" off_topic)) before_rating).2 = true ∧
  task_turn_idx (side 0 (Ok (rates "Worker" off_topic)) before_rating).2 =
    task_turn_idx before_rating ∧
  (task_turn_idx before_rating ≤ num_turns before_rating →
   side 0 (Ok (rates "Worker" off_topic)) before_rating =
     (Ok true, set_chat_done true before_rating)) ∧
  (task_turn_idx before_rating > num_turns before_rating → 0 = 0 →
   ∀ p d u,
     problem_data_of (rates "Worker" off_topic) = Ok p →
     dialog before_rating = d ++ [u] →
     side 0 (Ok (rates "Worker" off_topic)) before_rating =
       (Ok true, set_dialog (d ++ [set_problem_data p u])
                   (set_chat_done true before_rating))) ∧
  (task_turn_idx before_rating > num_turns before_rating → 0 = 1 →
   ∀ p u d,
     problem_data_of (rates "Worker" off_topic) = Ok p →
     dialog before_rating = u :: d →
     side 0 (Ok (rates "Worker" off_topic)) before_rating =
       (Ok true, set_dialog (set_problem_data p u :: d)
                   (set_chat_done true before_rating))) ∧
  (task_turn_idx before_rating ≠ 0 →
   parley (Ok (rates "Worker" off_topic)) (Ok (bot_says "")) before_rating =
     (match (side 0 (Ok (rates "Worker" off_topic)) before_rating).1 with
      | Ok _ => Ok tt
      | Raise e => Raise e
      end,
      (side 0 (Ok (rates "Worker" off_topic)) before_rating).2)).
Proof.
  apply (final_rating_ends_chat 0 (rates "Worker" off_topic) "4").
  - vm_compute. reflexivity.
  - reflexivity.
Defined.

(** C4 at the input where the code leaves it: the bot's message carries
    a final rating past [num_turns]; its problem data goes to
    [dialog[idx - 1]], which for the bot is the first entry of the
    dialog, and the entry just before the message, the human's ['Bye'],
    keeps its own. *)
Lemma bot_rating_marks_first_entry :
  task_turn_idx before_rating > num_turns before_rating ∧
  chat_done (parley (Ok (human_says "Bye")) (Ok (rates "Bot" off_topic))
                    before_rating).2 = true ∧
  problem_data <$> dialog (parley (Ok (human_says "Bye")) (Ok (rates "Bot" off_topic))
                                  before_rating).2
    = [Some off_topic; None; Some no_problem; None; Some no_problem].
Proof. vm_compute. repeat split. Qed.

(** C6 at a first turn with the start mode ['free']. *)
Lemma unrecognized_configuration_witness :
  ∃ e,
    (parley (Ok (human_says "")) (Ok (bot_says "Hello"))
            (start_world "free" "convai2" 1)).1 = Raise e ∧
    dialog (parley (Ok (human_says "")) (Ok (bot_says "Hello"))
                   (start_world "free" "convai2" 1)).2
      = dialog (start_world "free" "convai2" 1) ∧
    task_turn_idx (parley (Ok (human_says "")) (Ok (bot_says "Hello"))
                          (start_world "free" "convai2" 1)).2 = 0 ∧
    (e = ValueError ∨
     include_persona (opt (start_world "free" "convai2" 1)) = true ∧
     (send_persona (start_world "free" "convai2" 1)).1 = Raise e).
Proof.
  apply (proj1 unrecognized_configuration).
  - reflexivity.
  - simpl. discriminate.
  - simpl. discriminate.
Defined.

(** With a dataset tag no branch knows, the persona for the bot is made
    and the first turn returns; the chat is on, at turn index 1 with its
    two entries. *)
Lemma unknown_dataset_starts_chat :
  context_dataset (context_info (start_world "hi" "yelp" 1)) = Some (Some "yelp") ∧
  _get_persona_utterance 1 ["i am a chef."] (Some "yelp") None true
    = Ok "your persona: i am a chef." ∧
  (parley (Ok (human_says "")) (Ok (bot_says "Hello"))
          (start_world "hi" "yelp" 1)).1 = Ok tt ∧
  task_turn_idx (parley (Ok (human_says "")) (Ok (bot_says "Hello"))
                        (start_world "hi" "yelp" 1)).2 = 1 ∧
  said <$> dialog (parley (Ok (human_says "")) (Ok (bot_says "Hello"))
                          (start_world "hi" "yelp" 1)).2
    = [(0, "Hi!", "Worker", true); (1, "Hello", "Bot", false)].
Proof. vm_compute. repeat split. Qed.

(** C9 at a message of the human that ends in a marker. *)
Lemma break_marker_cut_witness :
  ∃ u, agent_idx u = 0 ∧ text u = split_br_0 "What do you cook?<br>" ∧
       said <$> dialog (side 0 (Ok (human_says "What do you cook?<br>"))
                             (start_world "hi" "convai2" 1)).2
         = (said <$> dialog (start_world "hi" "convai2" 1)) ++ [said u].
Proof.
  apply (proj1 break_marker_cut); reflexivity.
Defined.

(** C2, as stated, fails: the rule that penalises greetings is in the set
    in the seeded mode and out of it in the other. *)
Lemma greetings_penalised_in_seeded_mode :
  conversation_start_mode (opt seeded_chat) = "bst" ∧
  acceptability_violations (save_data rules_given seeded_chat)
    = Some "min_words,all_caps,exact_match,safety,penalize_greetings" ∧
  conversation_start_mode (opt greeted_chat) = "hi" ∧
  acceptability_violations (save_data rules_given greeted_chat)
    = Some "min_words,all_caps,exact_match,safety".
Proof. vm_compute. repeat split. Qed.
End chat_examples_2.

Section bot_choice_examples.

(** C8 at three bots, two of them with the greatest need. *)
Lemma make_world_chooses_greatest_need_witness :
  ∃ (i : nat) model_name c n,
    needed !! i = Some (model_name, c) ∧
    counted !! model_name = Some n ∧
    make_world needed counted = Ok (model_name, <[model_name := n + 1]> counted) ∧
    ∀ (j : nat) m' c' n',
      needed !! j = Some (m', c') → counted !! m' = Some n' →
      c' - n' ≤ c - n ∧ ((j < i)%nat → c' - n' < c - n).
Proof.
  apply make_world_chooses_greatest_need.
  - discriminate.
  - intros m c Hin. unfold needed in Hin.
    rewrite !elem_of_cons, elem_of_nil in Hin.
    destruct Hin as [[= -> ->] | [[= -> ->] | [[= -> ->] | []]]];
      eexists; vm_compute; reflexivity.
Defined.

Example make_world_takes_first_of_equal_needs :
  make_world needed counted = Ok ("b", {["a" := 0; "b" := 2; "c" := 1]}).
Proof. vm_compute. reflexivity. Qed.
End bot_choice_examples.

(** * Further properties *)

(** ** Comparing and counting answers *)

Section answers_further.
Import TurnAnnotationsOnboardWorld.

(** [has_same_answer] on any two lists: true exactly for rearrangements,
    so it holds of a list and itself, also of two empty lists, does not
    depend on the side a list stands on, and fails for lists of different
    lengths whatever they hold. *)
Theorem has_same_answer_rearrangement ans1 ans2 :
  (has_same_answer ans1 ans2 = true ↔ ans1 ≡ₚ ans2) ∧
  has_same_answer ans1 ans1 = true ∧
  has_same_answer ans1 ans2 = has_same_answer ans2 ans1 ∧
  (has_same_answer ans1 ans2 = true → length ans1 = length ans2).
Proof.
  split; [apply has_same_answer_Permutation |]. split; [| split].
  - by apply has_same_answer_Permutation.
  - destruct (has_same_answer ans1 ans2) eqn:E1, (has_same_answer ans2 ans1) eqn:E2;
      try done.
    + apply has_same_answer_Permutation in E1. symmetry in E1.
      apply has_same_answer_Permutation in E1. congruence.
    + apply has_same_answer_Permutation in E2. symmetry in E2.
      apply has_same_answer_Permutation in E2. congruence.
  - intros H%has_same_answer_Permutation. by apply Permutation_length.
Qed.

(** A turn is judged by the labels marked true alone: a label sent as
    false counts as one not sent. *)
Theorem turn_judged_by_true_labels worker_answer worker_answer' correct_answer :
  (∀ key, worker_answer !! key = Some true ↔ worker_answer' !! key = Some true) →
  has_same_answer (worker_only_selected worker_answer) correct_answer =
  has_same_answer (worker_only_selected worker_answer') correct_answer.
Proof.
  intros Hkeys.
  assert (Hiff : has_same_answer (worker_only_selected worker_answer) correct_answer = true ↔
                 has_same_answer (worker_only_selected worker_answer') correct_answer = true).
  { rewrite !has_same_answer_selected. unfold same_label_set.
    split; intros [Hnd Hset]; (split; [done |]); intros key;
      rewrite Hset; [apply Hkeys | symmetry; apply Hkeys]. }
  destruct (has_same_answer (worker_only_selected worker_answer) correct_answer),
           (has_same_answer (worker_only_selected worker_answer') correct_answer);
    try done.
  - by destruct Hiff as [-> _].
  - by destruct Hiff as [_ ->].
Qed.

Lemma count_answers_fold pairs c0 i0 :
  ∃ c i,
    fold_left
      (λ (counts : Z * Z) (p : gmap string bool * list string),
         if has_same_answer (worker_only_selected p.1) p.2
         then (counts.1 + 1, counts.2)
         else (counts.1, counts.2 + 1))
      pairs (c0, i0) = (c0 + c, i0 + i) ∧
    0 ≤ c ∧ 0 ≤ i ∧ c + i = Z.of_nat (length pairs).
Proof.
  revert c0 i0. induction pairs as [|p pairs IH]; intros c0 i0.
  - exists 0, 0. simpl. repeat split; try lia. f_equal; lia.
  - simpl. destruct (has_same_answer _ _).
    + destruct (IH (c0 + 1) i0) as (c & i & -> & Hc & Hi & Hsum).
      exists (c + 1), i. repeat split; try lia. f_equal; lia.
    + destruct (IH c0 (i0 + 1)) as (c & i & -> & Hc & Hi & Hsum).
      exists c, (i + 1). repeat split; try lia. f_equal; lia.
Qed.

Lemma zip_take_length {A B} (l : list A) (k : list B) :
  zip (take (length k) l) k = zip l k.
Proof.
  revert k. induction l as [|x l IH]; intros [|y k]; simpl; try done.
  by rewrite IH.
Qed.

(** Only the turns that [zip] pairs are counted: answers past the last
    reference turn are not looked at, turns without an answer are not
    counted as wrong, and the two counters add up to the number of pairs.
    So a submission with fewer answers than [min_correct] never passes,
    nor does any submission when the reference dialog is that short. *)
Theorem check_onboarding_answers_pairs self worker_answers :
  check_onboarding_answers self worker_answers =
    check_onboarding_answers self
      (take (length (dialog (onboard_task_data self))) worker_answers) ∧
  (∃ number_correct number_incorrect,
     count_answers
       (zip worker_answers
            ((λ t : TurnEntry * TurnEntry, answers t.2) <$> dialog (onboard_task_data self)))
       = (number_correct, number_incorrect) ∧
     0 ≤ number_correct ∧ 0 ≤ number_incorrect ∧
     number_correct + number_incorrect =
       Z.of_nat (length worker_answers `min` length (dialog (onboard_task_data self)))) ∧
  (Z.of_nat (length worker_answers) < min_correct self →
   check_onboarding_answers self worker_answers = false) ∧
  (Z.of_nat (length (dialog (onboard_task_data self))) < min_correct self →
   check_onboarding_answers self worker_answers = false).
Proof.
  set (refs := (λ t : TurnEntry * TurnEntry, answers t.2) <$> dialog (onboard_task_data self)).
  assert (Hcount : ∃ c i, count_answers (zip worker_answers refs) = (c, i) ∧
            0 ≤ c ∧ 0 ≤ i ∧
            c + i = Z.of_nat (length worker_answers `min`
                              length (dialog (onboard_task_data self)))).
  { unfold count_answers.
    destruct (count_answers_fold (zip worker_answers refs) 0 0)
      as (c & i & -> & Hc & Hi & Hsum).
    exists c, i. repeat split; try done.
    rewrite Hsum, length_zip_with. unfold refs. by rewrite length_fmap. }
  split; [| split; [exact Hcount | split]].
  - unfold check_onboarding_answers. fold refs.
    replace (length (dialog (onboard_task_data self))) with (length refs)
      by (unfold refs; apply length_fmap).
    by rewrite zip_take_length.
  - intros Hshort. unfold check_onboarding_answers. fold refs.
    destruct Hcount as (c & i & -> & Hc & Hi & Hsum).
    apply andb_false_iff. left. apply bool_decide_eq_false. lia.
  - intros Hshort. unfold check_onboarding_answers. fold refs.
    destruct Hcount as (c & i & -> & Hc & Hi & Hsum).
    apply andb_false_iff. left. apply bool_decide_eq_false. lia.
Qed.
End answers_further.

(** ** The course of an onboarding session *)

Section session_further.
Import TurnAnnotationsOnboardWorld.
Variables ONBOARD_FAIL ONBOARD_SUCCESS : string.

Lemma hold_world later self : (hold later self).2 = self.
Proof.
  revert self. induction later as [|r later IH]; intros self; [done |].
  cbn [hold]. run_method. destruct r; [apply IH | done].
Qed.

(** A session with a list of answers.  A worker who passes is let on at
    once: the world is done, the success status is shown and no
    qualification is granted.  A worker who fails is granted the
    qualification with value 0, once and before the fail status is
    shown, and the world is not marked done. *)
Theorem parley_with_answers act td worker_answers later self :
  ONBOARD_SUCCESS ≠ ONBOARD_FAIL →
  task_data act = Some td →
  annotations td = Some worker_answers →
  (check_onboarding_answers self worker_answers = true →
   parley ONBOARD_FAIL ONBOARD_SUCCESS (Ok act) later self =
     (Ok tt, emit (Observe ONBOARD_SUCCESS)
               (set_status ONBOARD_SUCCESS (set_episodeDone true self)))) ∧
  (check_onboarding_answers self worker_answers = false →
   (parley ONBOARD_FAIL ONBOARD_SUCCESS (Ok act) later self).2 =
     emit (Observe ONBOARD_FAIL)
       (set_status ONBOARD_FAIL
          (emit (GrantQualification (onboarding_qualification self) 0) self))).
Proof.
  intros Hne Htd Han. split; intros Hcheck.
  - unfold parley, _handle_act. run_method. rewrite Htd. run_method.
    rewrite Han. run_method. rewrite Hcheck.
    simpl. by rewrite bool_decide_eq_false_2.
  - unfold parley, _handle_act. run_method. rewrite Htd. run_method.
    rewrite Han. run_method. rewrite Hcheck.
    simpl. rewrite bool_decide_eq_true_2 by done.
    set (w := emit _ _). pose proof (hold_world later w) as H.
    destruct (hold later w) as [[[]|e] w']; simpl in *; by subst.
Qed.

(** What the worker sends after the decision is thrown away: the world a
    session ends in does not depend on it.  A message without
    [task_data] fails the worker without any qualification being
    granted, and when the message never comes the exception goes on to
    the caller with the world untouched. *)
Theorem parley_discards_later_input reply later self :
  (parley ONBOARD_FAIL ONBOARD_SUCCESS reply later self).2 =
    (parley ONBOARD_FAIL ONBOARD_SUCCESS reply [] self).2 ∧
  (∀ act, reply = Ok act → task_data act = None →
     (parley ONBOARD_FAIL ONBOARD_SUCCESS reply later self).2 =
       emit (Observe ONBOARD_FAIL) (set_status ONBOARD_FAIL self)) ∧
  (∀ e, reply = Raise e →
     parley ONBOARD_FAIL ONBOARD_SUCCESS reply later self = (Raise e, self)).
Proof.
  assert (Hany : ∀ l,
    (parley ONBOARD_FAIL ONBOARD_SUCCESS reply l self).2 =
    match reply with
    | Raise _ => self
    | Ok act =>
        match _handle_act ONBOARD_FAIL ONBOARD_SUCCESS act self with
        | (Ok st, w) => emit (Observe st) (set_status st w)
        | (Raise _, w) => w
        end
    end).
  { intros l. unfold parley. destruct reply as [act|e]; [| done]. run_method.
    destruct (_handle_act ONBOARD_FAIL ONBOARD_SUCCESS act self) as [[st|e] w]; [| done].
    simpl. case_bool_decide as Hst; [| done].
    set (w' := emit _ _). pose proof (hold_world l w') as Hw.
    destruct (hold l w') as [[[]|e] w'']; simpl in *; by subst w''. }
  split; [by rewrite !Hany |]. split.
  - intros act -> Hnone. rewrite Hany. unfold _handle_act. by rewrite Hnone.
  - by intros e ->.
Qed.
End session_further.

(** ** Attaching problem data *)

Section chat_further.
Import TurnAnnotationsChatWorld.

Lemma py_index_mod {A} (l : list A) (i : Z) :
  py_index l i =
  if bool_decide (- Z.of_nat (length l) ≤ i < Z.of_nat (length l))
  then Some (Z.to_nat (i `mod` Z.of_nat (length l))) else None.
Proof.
  unfold py_index. set (n := Z.of_nat (length l)).
  repeat case_bool_decide; try lia; try done;
    first [ by rewrite <- (Z.mod_unique i n (-1) (i + n)) by lia
          | by rewrite Z.mod_small by lia ].
Qed.

(** [__add_problem_data_to_utterance] takes an index as a Python list
    does: from [-len] up to [len - 1] it writes the problem data of the
    entry at that place, counted from the end when negative, and
    changes nothing that an entry says; any other index raises
    [IndexError] and leaves the world as it was. *)
Theorem add_problem_data_index p turn_idx self :
  __add_problem_data_to_utterance p turn_idx self =
    (if bool_decide (- Z.of_nat (length (dialog self)) ≤ turn_idx
                     < Z.of_nat (length (dialog self)))
     then (Ok tt,
           set_dialog
             (alter (set_problem_data p)
                    (Z.to_nat (turn_idx `mod` Z.of_nat (length (dialog self))))
                    (dialog self))
             self)
     else (Raise IndexError, self)) ∧
  said <$> dialog (__add_problem_data_to_utterance p turn_idx self).2
    = said <$> dialog self.
Proof.
  unfold __add_problem_data_to_utterance. run_method. unfold py_update.
  rewrite py_index_mod. case_bool_decide; [| done]. simpl. split; [done |].
  apply list_eq. intros k. rewrite !list_lookup_fmap.
  set (j := Z.to_nat _).
  destruct (decide (j = k)) as [->|].
  - rewrite list_lookup_alter_eq. by destruct (dialog self !! k).
  - by rewrite list_lookup_alter_ne.
Qed.

(** A message of the human that goes on with the chat: its entry is
    recorded, and the problem data it carries is written to that very
    entry, the last of the dialog after the append; the entries before
    it stay as they were.  Without problem data the lookup raises
    [KeyError] after the entry was recorded: the entry stays, the bot is
    not told and the turn index does not move. *)
Theorem human_message_recorded act t self :
  chat_done self = false →
  final_rating_of act = None →
  act_text act = Some t →
  match problem_data_of act with
  | Ok p =>
      ∃ self',
        side 0 (Ok act) self = (Ok false, self') ∧
        dialog self' = dialog self ++ [set_problem_data p (utterance_data 0 act t)] ∧
        task_turn_idx self' = task_turn_idx self + 1
  | Raise e =>
      e = KeyError ∧
      side 0 (Ok act) self = (Raise KeyError, dialog_append (utterance_data 0 act t) self)
  end.
Proof.
  intros Hdone Hr Ht. rewrite (side_utterance _ _ _ _ Hdone Hr Ht). cbv zeta.
  rewrite bool_decide_eq_true_2 by done.
  destruct (problem_data_of act) as [p|e] eqn:E.
  - eexists. split; [reflexivity |]. done.
  - assert (e = KeyError) as ->; [| done].
    unfold problem_data_of in E. destruct (task_data act) as [td|]; [| by injection E].
    destruct (problem_data_for_prior_message td); [done | by injection E].
Qed.

(** ** Who is shown what *)

(** In the main loop a message that goes on with the chat is shown to the
    other side only, as it came (the markup after ['<br>'] included); a
    message with a final rating is shown to nobody. *)
Theorem message_shown_to_other_side idx act r self self' :
  side idx (Ok act) self = (Ok r, self') →
  if r then
    agent_observed self' = agent_observed self ∧
    bot_observed self' = bot_observed self
  else if bool_decide (idx = 0) then
    agent_observed self' = agent_observed self ∧
    bot_observed self' = bot_observed self ++ [Acted act]
  else
    agent_observed self' = agent_observed self ++ [Acted act] ∧
    bot_observed self' = bot_observed self.
Proof.
  intros H. destruct (chat_done self) eqn:Hdone.
  { unfold side in H. run_method. by rewrite Hdone in H. }
  destruct (final_rating_of act) as [fr|] eqn:Hr.
  - rewrite (side_final _ _ _ _ Hdone Hr) in H. case_bool_decide.
    + destruct (problem_data_of act) as [p|e]; [| done].
      destruct (py_update _ _ _) as [d|e]; [| done]. by injection H as <- <-.
    + by injection H as <- <-.
  - destruct (act_text act) as [t|] eqn:Ht.
    2:{ unfold side in H. run_method. by rewrite Hdone, Hr, Ht in H. }
    rewrite (side_utterance _ _ _ _ Hdone Hr Ht) in H. cbv zeta in H.
    case_bool_decide.
    + destruct (problem_data_of act) as [p|e]; [| done]. by injection H as <- <-.
    + by injection H as <- <-.
Qed.

(** ** What a call of [parley] leaves alone *)

Local Ltac frame_leaf := simpl in *; repeat split; (done || lia || congruence).

Lemma side_frame idx reply self :
  setting (side idx reply self).2 = setting self ∧
  task_turn_idx self ≤ task_turn_idx (side idx reply self).2 ≤ task_turn_idx self + 1 ∧
  (chat_done self = true → (side idx reply self).2 = self) ∧
  (chat_done self = false → chat_done (side idx reply self).2 = true →
   ∃ act fr, reply = Ok act ∧ final_rating_of act = Some fr).
Proof.
  unfold side, __add_problem_data_to_utterance. run_method.
  destruct (chat_done self) eqn:Hdone; [frame_leaf |].
  destruct reply as [act|e]; [| frame_leaf].
  destruct (final_rating_of act) as [fr|] eqn:Hr.
  - assert (∃ act0 fr0, Ok act = Ok act0 ∧ final_rating_of act0 = Some fr0)
      by (by exists act, fr).
    simpl. case_bool_decide; [| frame_leaf].
    destruct (problem_data_of act) as [p|e]; [| frame_leaf]. simpl.
    destruct (py_update _ _ _); frame_leaf.
  - destruct (act_text act) as [t|]; [| frame_leaf].
    simpl. case_bool_decide.
    + destruct (problem_data_of act) as [p|e]; simpl.
      * destruct (py_update _ _ _); frame_leaf.
      * frame_leaf.
    + simpl. frame_leaf.
Qed.

Lemma first_turn_frame bot_reply self :
  setting (first_turn bot_reply self).2 = setting self ∧
  task_turn_idx self ≤ task_turn_idx (first_turn bot_reply self).2
    ≤ task_turn_idx self + 1 ∧
  chat_done (first_turn bot_reply self).2 = chat_done self.
Proof.
  unfold first_turn. run_method.
  destruct ((if include_persona (opt self) then send_persona else λ s, (Ok tt, s)) self)
    as [[[]|e] w1] eqn:E.
  2:{ apply persona_step_frame in E as [-> | (m & _ & ->)]; simpl;
        frame_leaf. }
  assert (Hw1 : setting w1 = setting self ∧ task_turn_idx w1 = task_turn_idx self ∧
                chat_done w1 = chat_done self).
  { apply persona_step_frame in E as [-> | (m & _ & ->)]; done. }
  destruct Hw1 as (Hs & Hi & Hd). rewrite <- Hs, <- Hi, <- Hd. clear E Hs Hi Hd.
  case_bool_decide; [| case_bool_decide]; [| | frame_leaf].
  - unfold start_bst. run_method.
    destruct (person1_seed_utterance (context_info w1));
      [| frame_leaf].
    destruct (person2_seed_utterance (context_info w1));
      frame_leaf.
  - unfold start_hi. run_method.
    destruct bot_reply as [act|e]; [| frame_leaf].
    destruct (act_text act); [| frame_leaf].
    destruct (act_id act); frame_leaf.
Qed.

Lemma parley_frame human_reply bot_reply self :
  setting (parley human_reply bot_reply self).2 = setting self ∧
  task_turn_idx self ≤ task_turn_idx (parley human_reply bot_reply self).2
    ≤ task_turn_idx self + 2.
Proof.
  unfold parley. run_method. case_bool_decide.
  - destruct (first_turn_frame bot_reply self) as (Hs & Hi & _). split; [done | lia].
  - destruct (side_frame 0 human_reply self) as (Hs0 & Hi0 & _).
    destruct (side 0 human_reply self) as [[[]|e] w1]; simpl in *;
      [split; [done | lia] | | split; [done | lia]].
    destruct (side_frame 1 bot_reply w1) as (Hs1 & Hi1 & _).
    destruct (side 1 bot_reply w1) as [[r|e] w2]; simpl in *;
      (split; [congruence | lia]).
Qed.

(** No call of [parley] changes what the world was set up with, and the
    turn index never falls: it stays or grows, by 2 at most. *)
Theorem parley_keeps_setting human_reply bot_reply self :
  setting (parley human_reply bot_reply self).2 = setting self ∧
  task_turn_idx self ≤ task_turn_idx (parley human_reply bot_reply self).2
    ≤ task_turn_idx self + 2.
Proof. apply parley_frame. Qed.

(** A finished chat stays finished, and in the main loop [parley] on it
    raises [AttributeError] (no act was asked for) without touching the
    world: nothing is recorded after the end. *)
Theorem parley_after_chat_done human_reply bot_reply self :
  chat_done self = true →
  chat_done (parley human_reply bot_reply self).2 = true ∧
  (task_turn_idx self ≠ 0 →
   parley human_reply bot_reply self = (Raise AttributeError, self)).
Proof.
  intros Hdone. split.
  - unfold parley. run_method. case_bool_decide.
    + destruct (first_turn_frame bot_reply self) as (_ & _ & ->). done.
    + unfold side. run_method. by rewrite Hdone.
  - intros Hidx. unfold parley. run_method. rewrite bool_decide_eq_false_2 by done.
    unfold side. run_method. by rewrite Hdone.
Qed.

(** A chat is only ever finished by a final rating: when a call of
    [parley] sets [chat_done], returning or raising, the turn index was
    past 0 and the message of one of the two sides carried a rating. *)
Theorem chat_done_by_rating human_reply bot_reply self :
  chat_done self = false →
  chat_done (parley human_reply bot_reply self).2 = true →
  task_turn_idx self ≠ 0 ∧
  ∃ act fr, (human_reply = Ok act ∨ bot_reply = Ok act) ∧
            final_rating_of act = Some fr.
Proof.
  intros Hdone. unfold parley. run_method. case_bool_decide as Hidx.
  - destruct (first_turn_frame bot_reply self) as (_ & _ & ->). congruence.
  - intros H. split; [done |].
    destruct (side_frame 0 human_reply self) as (_ & _ & _ & H0).
    destruct (side 0 human_reply self) as [[[]|e] w1] eqn:E; simpl in *.
    + destruct (H0 Hdone H) as (act & fr & -> & Hfr). exists act, fr. by split; [left |].
    + destruct (chat_done w1) eqn:Hdone1.
      * destruct (H0 Hdone eq_refl) as (act & fr & -> & Hfr).
        exists act, fr. by split; [left |].
      * destruct (side_frame 1 bot_reply w1) as (_ & _ & _ & H1).
        destruct (side 1 bot_reply w1) as [[r|e] w2]; simpl in *;
          destruct (H1 Hdone1 H) as (act & fr & -> & Hfr);
          exists act, fr; by split; [right |].
    + destruct (H0 Hdone H) as (act & fr & -> & Hfr). exists act, fr. by split; [left |].
Qed.

(** ** The first turn *)


Lemma persona_step_again self self0 self' :
  (if include_persona (opt self) then send_persona else mret tt) self = (Ok tt, self0) →
  setting self' = setting self →
  ∃ self0',
    (if include_persona (opt self') then send_persona else mret tt) self'
      = (Ok tt, self0').
Proof.
  intros E Hset.
  assert (opt self' = opt self ∧ num_turns self' = num_turns self ∧
          context_info self' = context_info self ∧ personas self' = personas self)
    as (Ho & Hn & Hc & Hp) by (unfold setting in Hset; repeat split; congruence).
  rewrite Ho. destruct (include_persona (opt self)); [| by eexists].
  revert E. unfold send_persona. run_method. rewrite Hn, Hc, Hp.
  destruct (personas self) as [ps|]; [| done].
  destruct (context_dataset (context_info self)) as [cd|]; [| done].
  destruct (additional_context (context_info self)) as [ac|]; [| done].
  destruct (_get_persona_utterance _ _ _ _ _) as [m|e]; [| done].
  intros _. by eexists.
Qed.

(** A first turn that fails in the greeting-only mode is not taken back:
    once the persona step, where the options ask for one, has gone
    through and the bot's first act raises, the greeting is already
    recorded and shown to both sides while the turn index is still 0; a
    second call then runs the first turn again and records the greeting
    a second time. *)
Theorem failed_greeting_is_kept human_reply human_reply' e first_bot_act t i self self0 :
  task_turn_idx self = 0 →
  (if include_persona (opt self) then send_persona else mret tt) self = (Ok tt, self0) →
  conversation_start_mode (opt self) = "hi" →
  act_text first_bot_act = Some t → act_id first_bot_act = Some i →
  ∃ self1 self2,
    parley human_reply (Raise e) self = (Raise e, self1) ∧
    task_turn_idx self1 = 0 ∧
    dialog self1 = dialog self ++ [greeting self] ∧
    agent_observed self1 = agent_observed self ++ [Said (greeting self)] ∧
    bot_observed self1 = bot_observed self0 ++ [Said (greeting self)] ∧
    parley human_reply' (Ok first_bot_act) self1 = (Ok tt, self2) ∧
    dialog self2 = dialog self ++ [greeting self] ++ greeting_pair self t i.
Proof.
  intros Hidx Hp Hmode Ht Hi.
  pose (self1 := bot_observe (Said (greeting self))
                   (agent_observe (Said (greeting self))
                      (dialog_append (greeting self) self0))).
  assert (Hframe : setting self0 = setting self ∧ dialog self0 = dialog self ∧
                   task_turn_idx self0 = task_turn_idx self ∧
                   agent_observed self0 = agent_observed self).
  { apply persona_step_frame in Hp as [-> | (m & _ & ->)]; done. }
  destruct Hframe as (Hset0 & Hd0 & Hi0 & Ha0).
  assert (Hset1 : setting self1 = setting self) by (rewrite <- Hset0; done).
  destruct (persona_step_again self self0 self1 Hp Hset1) as [self1' Hp1].
  assert (Hframe : setting self1' = setting self1 ∧ dialog self1' = dialog self1 ∧
                   task_turn_idx self1' = task_turn_idx self1).
  { apply persona_step_frame in Hp1 as [-> | (m & _ & ->)]; done. }
  destruct Hframe as (Hset1' & Hd1' & Hi1').
  assert (agent_id self0 = agent_id self ∧ opt self0 = opt self) as [Hid0 Ho0]
    by (unfold setting in Hset0; split; congruence).
  assert (agent_id self1' = agent_id self ∧ opt self1' = opt self ∧
          opt self1 = opt self) as (Hid1 & Ho1 & Ho1')
    by (unfold setting in Hset1, Hset1'; repeat split; congruence).
  assert (Hstep1 : parley human_reply (Raise e) self = (Raise e, self1)).
  { unfold parley, first_turn. run_method.
    rewrite bool_decide_eq_true_2 by done. rewrite Hp, Hmode. simpl.
    unfold start_hi. run_method. simpl.
    unfold self1, greeting. by rewrite Hid0. }
  exists self1.
  eexists. split; [exact Hstep1 |].
  split; [unfold self1; simpl; congruence |].
  split; [unfold self1; simpl; congruence |].
  split; [unfold self1; simpl; congruence |].
  split; [done |].
  assert (Hidx1 : task_turn_idx self1 = 0) by (unfold self1; simpl; congruence).
  split.
  - unfold parley, first_turn. run_method.
    rewrite bool_decide_eq_true_2 by done. rewrite Hp1, Ho1', Hmode. simpl.
    unfold start_hi. run_method. simpl. rewrite Ht, Hi. simpl. reflexivity.
  - simpl. rewrite Hd1'. unfold self1. simpl. rewrite Hd0, Hid1.
    unfold greeting_pair, greeting. by rewrite <- !app_assoc.
Qed.

(** ** The texts that are screened *)

Lemma reachable_first_pair o aid bid bwid ci start self :
  __init__ o aid bid bwid ci = Ok start →
  reachable start self →
  setting self = setting start ∧
  (task_turn_idx self = 0 ∧ dialog self = [] ∨
   1 ≤ task_turn_idx self ∧
   ∃ pair, said <$> pair `prefix_of` said <$> dialog self ∧
     (conversation_start_mode (opt start) = "bst" ∧
      (∃ t1 t2, person1_seed_utterance (context_info start) = Some t1 ∧
                pair = seed_pair start t1 t2) ∨
      conversation_start_mode (opt start) = "hi" ∧
      (∃ t i, pair = greeting_pair start t i))).
Proof.
  intros Hinit Hreach. induction Hreach as [|self self' h b Hreach IH Hstep].
  - split; [done |]. left. unfold __init__ in Hinit.
    destruct ci as [ci|]; [| by injection Hinit as <-].
    destruct (persona_1_strings ci), (persona_2_strings ci); try done.
    by injection Hinit as <-.
  - destruct IH as [Hset Hd].
    destruct (parley_frame h b self) as [Hset' Hidx']. rewrite Hstep in Hset', Hidx'.
    simpl in Hset', Hidx'. split; [congruence |]. right.
    assert (Ho : opt self = opt start ∧ context_info self = context_info start ∧
                 agent_id self = agent_id start ∧ bot_id self = bot_id start).
    { unfold setting in Hset. repeat split; congruence. }
    destruct Ho as (Ho & Hc & Ha & Hb).
    destruct Hd as [[Hidx Hnil] | (Hge & pair & Hpre & Hpair)].
    + apply parley_Ok in Hstep as [[_ H] | [? _]]; [| done].
      apply first_turn_Ok in H as (Hi & _ & Hd'). split; [lia |].
      rewrite Hnil, Ho, Hc in Hd'. simpl in Hd'.
      destruct Hd' as [(Hm & t1 & t2 & H1 & H2 & ->) | (Hm & act & t & i & _ & _ & _ & ->)].
      * exists (seed_pair start t1 t2). split.
        -- unfold seed_pair. by rewrite Ha, Hb.
        -- left. split; [done |]. by exists t1, t2.
      * exists (greeting_pair start t i). split.
        -- unfold greeting_pair. by rewrite Ha.
        -- right. split; [done |]. by exists t, i.
    + split; [lia |]. exists pair. split; [| done].
      etrans; [exact Hpre |].
      pose proof (parley_prefix h b self) as H. by rewrite Hstep in H.
Qed.

Lemma human_texts_head u0 u1 d :
  said <$> [u0; u1] `prefix_of` said <$> d →
  agent_idx u0 = 0 →
  head (human_texts d) = Some (text u0).
Proof.
  intros [k Hk] H0. destruct d as [|d0 d]; [done |].
  simpl in Hk. injection Hk as Ha Ht _ _ _.
  unfold human_texts. rewrite filter_cons_True by congruence. simpl. by rewrite Ht.
Qed.

(** The entries that start a conversation are screened with the rest:
    once the first turn is done, the texts [save_data] hands to the
    checker begin with the literal greeting in the greeting-only mode
    and with the human's seed utterance in the seeded mode. *)
Theorem screened_texts_begin_with_start o aid bid bwid ci start self :
  __init__ o aid bid bwid ci = Ok start →
  reachable start self →
  task_turn_idx self ≠ 0 →
  (conversation_start_mode (opt self) = "hi" →
   head (human_texts (dialog self)) = Some "Hi!") ∧
  (conversation_start_mode (opt self) = "bst" →
   head (human_texts (dialog self)) = person1_seed_utterance (context_info self)).
Proof.
  intros Hinit Hreach Hidx.
  destruct (reachable_first_pair _ _ _ _ _ _ _ Hinit Hreach) as [Hset Hd].
  assert (Ho : opt self = opt start ∧ context_info self = context_info start).
  { unfold setting in Hset. repeat split; congruence. }
  destruct Ho as [-> ->].
  destruct Hd as [[? _] | (_ & pair & Hpre & Hpair)]; [done |].
  split; intros Hmode;
    destruct Hpair as [(Hm & t1 & t2 & H1 & ->) | (Hm & t & i & ->)];
    try (rewrite Hmode in Hm; done).
  - unfold greeting_pair in Hpre.
    by rewrite (human_texts_head _ _ _ Hpre eq_refl).
  - unfold seed_pair in Hpre. rewrite H1.
    by rewrite (human_texts_head _ _ _ Hpre eq_refl).
Qed.
End chat_further.

(** ** Recorded texts and persona texts *)

Section texts_further.
Import TurnAnnotationsChatWorld.

Lemma split_br_0_is_prefix s : ∃ rest, s = split_br_0 s +:+ rest.
Proof.
  induction s as [|c s [rest IH]]; [by exists "" |].
  rewrite split_br_0_unfold. destruct (String.prefix br (String c s)).
  - by exists (String c s).
  - exists rest. change (String c s = String c (split_br_0 s +:+ rest)). by f_equal.
Qed.

Lemma split_br_0_has_no_marker s a b : split_br_0 s ≠ a +:+ br +:+ b.
Proof.
  revert a. induction s as [|c s IH]; intros a.
  - destruct a; discriminate.
  - rewrite split_br_0_unfold.
    destruct (String.prefix br (String c s)) eqn:E; [destruct a; discriminate |].
    destruct a as [|c' a].
    + intros H. change ("" +:+ br +:+ b) with (br +:+ b) in H.
      destruct (split_br_0_is_prefix s) as [rest Hrest].
      assert (String.prefix br (String c s) = true); [| congruence].
      apply prefix_br. exists (b +:+ rest).
      rewrite Hrest. change (String c (split_br_0 s +:+ rest))
        with (String c (split_br_0 s) +:+ rest).
      rewrite H. unfold br. simpl. done.
    + intros H. injection H as _ H. by apply IH in H.
Qed.

(** A text recorded in the main loop never holds the marker ['<br>']; it
    is the start of the text that came, and cutting it again changes
    nothing. *)
Theorem recorded_text_has_no_marker s :
  (∀ a b, split_br_0 s ≠ a +:+ br +:+ b) ∧
  (∃ rest, s = split_br_0 s +:+ rest) ∧
  split_br_0 (split_br_0 s) = split_br_0 s.
Proof.
  split; [intros; apply split_br_0_has_no_marker |].
  split; [apply split_br_0_is_prefix |].
  apply split_br_0_no_marker. intros a b. apply split_br_0_has_no_marker.
Qed.

Lemma mapM_id_None (l : list string) (k : list (option string)) :
  mapM Datatypes.id ((Some <$> l) ++ None :: k) = None.
Proof.
  apply eq_None_not_Some. intros H%mapM_is_Some.
  apply Forall_app in H as [_ H]. apply Forall_cons in H as [H _].
  by destruct H.
Qed.

(** The persona text for the bot under the tag ['wizard_of_wikipedia']
    ends with the additional context as a line of its own, and making it
    raises [TypeError] when that context is [None].  The persona text
    for the human is made exactly for the three known tags. *)
Theorem persona_utterance_cases n persona_strings cd ac additional :
  _get_persona_utterance n persona_strings (Some "wizard_of_wikipedia")
      (Some additional) true
    = Ok (String.concat NL
            (((λ str_, "your persona: " +:+ str_) <$> persona_strings)
             ++ [additional])) ∧
  _get_persona_utterance n persona_strings (Some "wizard_of_wikipedia") None true
    = Raise TypeError ∧
  ((∃ s, _get_persona_utterance n persona_strings cd ac false = Ok s) ↔
   cd = Some "convai2" ∨ cd = Some "empathetic_dialogues" ∨
   cd = Some "wizard_of_wikipedia").
Proof.
  split; [| split].
  - unfold _get_persona_utterance. rewrite bool_decide_eq_true_2 by done.
    rewrite <- py_join_Some, fmap_app, <- list_fmap_compose. done.
  - unfold _get_persona_utterance. rewrite bool_decide_eq_true_2 by done.
    unfold py_join.
    rewrite (list_fmap_compose (λ str_, "your persona: " +:+ str_) Some).
    by rewrite mapM_id_None.
  - unfold _get_persona_utterance.
    repeat case_bool_decide; split; intros Hx;
      first [ by eexists | by auto | by destruct Hx
            | destruct Hx as [? | [? | ?]]; congruence ].
Qed.
End texts_further.

(** ** The counters of the bots *)

Section counters_further.
Import TurnAnnotationsChatWorld.

Lemma remaining_counts_needed_Ok conversations_needed run_statistics :
  (∀ m c, (m, c) ∈ conversations_needed → is_Some (run_statistics !! m)) →
  ∃ remaining,
    remaining_counts_needed conversations_needed run_statistics = Ok remaining ∧
    Forall2 (λ mc r, ∃ n, run_statistics !! mc.1 = Some n ∧ r = (mc.1, mc.2 - n))
            conversations_needed remaining.
Proof.
  intros Hkeys. unfold remaining_counts_needed.
  set (f := λ mc : string * Z, n ← run_statistics !! mc.1; Some (mc.1, mc.2 - n)).
  assert (Hf : ∀ mc r, f mc = Some r ↔
                ∃ n, run_statistics !! mc.1 = Some n ∧ r = (mc.1, mc.2 - n)).
  { intros mc r. unfold f. rewrite bind_Some.
    split; intros (n & Hn & Hr); exists n; split; congruence. }
  destruct (mapM f conversations_needed) as [remaining|] eqn:E.
  - exists remaining. split; [done |]. apply mapM_Some in E.
    eapply Forall2_impl; [exact E |]. intros mc r. apply Hf.
  - apply eq_None_not_Some in E. destruct E. apply mapM_is_Some.
    apply Forall_forall. intros [m c] Hin. destruct (Hkeys m c Hin) as [n Hn].
    exists (m, c - n). apply Hf. by exists n.
Qed.

Lemma remaining_counts_needed_missing conversations_needed run_statistics m c :
  (m, c) ∈ conversations_needed → run_statistics !! m = None →
  remaining_counts_needed conversations_needed run_statistics = Raise KeyError.
Proof.
  intros Hin Hnone. unfold remaining_counts_needed.
  destruct (mapM _ conversations_needed) as [remaining|] eqn:E; [| done].
  apply mapM_Some in E.
  apply list_elem_of_lookup in Hin as [i Hi].
  destruct (Forall2_lookup_l _ _ _ _ _ E Hi) as (r & _ & Hr). simpl in Hr.
  by rewrite Hnone in Hr.
Qed.

Lemma make_world_present conversations_needed run_statistics :
  conversations_needed ≠ [] →
  (∀ m c, (m, c) ∈ conversations_needed → is_Some (run_statistics !! m)) →
  ∃ model_name n,
    run_statistics !! model_name = Some n ∧
    make_world conversations_needed run_statistics =
      Ok (model_name, <[model_name := n + 1]> run_statistics).
Proof.
  intros Hne Hkeys. unfold make_world.
  destruct (remaining_counts_needed_Ok _ _ Hkeys) as (remaining & -> & E).
  rewrite py_getitem_0, head_stable_sort.
  destruct (first_of _ remaining) as [best|] eqn:Hbest.
  2:{ apply first_of_nil_inv in Hbest as ->. apply Forall2_nil_inv_r in E. done. }
  apply first_of_greatest in Hbest as (i & Hi & _).
  destruct (Forall2_lookup_r _ _ _ _ _ E Hi) as ([m c] & _ & n & Hn & ->).
  simpl in *. exists m, n. by rewrite Hn.
Qed.

(** When [make_world] cannot choose: it raises [IndexError] exactly when
    no bot is asked for, and [KeyError] exactly when a bot that is asked
    for has no counter; in every other case it returns. *)
Theorem make_world_errors conversations_needed run_statistics :
  (make_world conversations_needed run_statistics = Raise IndexError ↔
   conversations_needed = []) ∧
  (make_world conversations_needed run_statistics = Raise KeyError ↔
   ∃ m c, (m, c) ∈ conversations_needed ∧ run_statistics !! m = None) ∧
  ((∃ chosen, make_world conversations_needed run_statistics = Ok chosen) ↔
   conversations_needed ≠ [] ∧
   ∀ m c, (m, c) ∈ conversations_needed → is_Some (run_statistics !! m)).
Proof.
  destruct (decide (conversations_needed = [])) as [-> | Hne].
  { split; [done |]. split; split;
      [done | by intros (m & c & ?%elem_of_nil & _) | by intros [? ?] | by intros [? _]]. }
  destruct (decide (Forall (λ mc : string * Z, is_Some (run_statistics !! mc.1))
                           conversations_needed)) as [Hall | Hmiss].
  - assert (Hkeys : ∀ m c, (m, c) ∈ conversations_needed → is_Some (run_statistics !! m)).
    { intros m c Hin. by apply (proj1 (Forall_forall _ _) Hall (m, c)). }
    destruct (make_world_present _ _ Hne Hkeys) as (m & n & Hn & ->).
    split; [done |]. split; split; try done.
    + intros (m' & c' & Hin & Hnone). destruct (Hkeys m' c' Hin) as [? ?]. congruence.
    + by eexists.
  - apply not_Forall_Exists in Hmiss; [| apply _].
    apply Exists_exists in Hmiss as ([m c] & Hin & Hnone). simpl in Hnone.
    apply eq_None_not_Some in Hnone.
    unfold make_world.
    rewrite (remaining_counts_needed_missing _ _ m c Hin Hnone).
    split; [done |]. split; split; try done.
    + intros _. by exists m, c.
    + by intros [? ?].
    + intros [_ Hkeys]. destruct (Hkeys m c Hin) as [? ?]. congruence.
Qed.

(** A finished chat is counted twice for its bot: [make_world] raises the
    counter of the bot it chooses, and [shutdown] of the chat raises it
    again once the chat is done; the counter of a chat that is not done
    stays as [make_world] left it, and [shutdown] does not raise. *)
Theorem finished_chat_counted_twice conversations_needed run_statistics
    model_name run_statistics' self :
  make_world conversations_needed run_statistics = Ok (model_name, run_statistics') →
  bot_worker_id self = model_name →
  ∃ n,
    run_statistics !! model_name = Some n ∧
    run_statistics' = <[model_name := n + 1]> run_statistics ∧
    shutdown self run_statistics' =
      Ok (if chat_done self then <[model_name := n + 2]> run_statistics
          else run_statistics').
Proof.
  intros Hmake Hbot. unfold make_world in Hmake.
  destruct (remaining_counts_needed _ _) as [remaining|]; [| done].
  destruct (py_getitem _ 0) as [first|]; [| done]. simpl in Hmake.
  destruct (run_statistics !! first.1) as [n|] eqn:Hn; [| done].
  injection Hmake as <- <-. exists n. split; [done |]. split; [done |].
  unfold shutdown. rewrite Hbot. destruct (chat_done self); [| done].
  rewrite lookup_insert_eq, insert_insert_eq. do 2 f_equal. lia.
Qed.
End counters_further.

(** * Further worked cases *)

Section onboarding_cases_further.
Import TurnAnnotationsOnboardWorld.

(** The validation at a log of two packets. *)
Lemma validate_onboarding_returns_witness :
  ∃ b, validate_onboarding "ONBOARD_SUCCESS" sample_log = Ok b ∧
       (b = true ↔
        ∃ packet payload,
          sample_log !! (length sample_log - 2)%nat = Some (Some packet) ∧
          data packet = Some payload ∧
          final_status payload = Some "ONBOARD_SUCCESS").
Proof. apply validate_onboarding_returns. simpl. lia. Defined.

(** Two lists that are rearrangements of each other have one length. *)
Lemma has_same_answer_rearrangement_witness :
  has_same_answer ["b"; "a"] ["a"; "b"] = true ∧
  length ["b"; "a"] = length ["a"; "b"].
Proof.
  assert (H : has_same_answer ["b"; "a"] ["a"; "b"] = true) by (vm_compute; reflexivity).
  split; [exact H |].
  exact (proj2 (proj2 (proj2 (has_same_answer_rearrangement ["b"; "a"] ["a"; "b"]))) H).
Defined.

(** A box sent as false next to the marked one changes nothing. *)
Lemma turn_judged_by_true_labels_witness :
  has_same_answer (worker_only_selected marked_a_not_b) ["a"] =
  has_same_answer (worker_only_selected marked_a) ["a"].
Proof.
  apply turn_judged_by_true_labels. intros key. unfold marked_a_not_b.
  rewrite lookup_insert. case_decide as Hkey; [| done]. subst key.
  split; [discriminate |]. vm_compute. discriminate.
Defined.

(** No answer at all, with [min_correct] at 1. *)
Lemma check_onboarding_answers_pairs_witness :
  check_onboarding_answers repeated_label_world [] = false.
Proof.
  apply (proj1 (proj2 (proj2 (check_onboarding_answers_pairs repeated_label_world [])))).
  simpl. lia.
Defined.

(** The worker who marks [a] against the reference that names it twice
    fails and is granted the qualification. *)
Lemma parley_with_answers_witness :
  (parley "ONBOARD_FAIL" "ONBOARD_SUCCESS" (Ok marked_submission) [] repeated_label_world).2 =
    emit (Observe "ONBOARD_FAIL")
      (set_status "ONBOARD_FAIL"
         (emit (GrantQualification (onboarding_qualification repeated_label_world) 0)
               repeated_label_world)).
Proof.
  refine (proj2 (parley_with_answers "ONBOARD_FAIL" "ONBOARD_SUCCESS" marked_submission
                   _ [marked_a] [] repeated_label_world _ eq_refl eq_refl) _).
  - discriminate.
  - vm_compute. reflexivity.
Defined.

(** A message without [task_data], followed by two more messages. *)
Lemma parley_discards_later_input_witness :
  (parley "ONBOARD_FAIL" "ONBOARD_SUCCESS" (Ok bare_message)
          [Ok marked_submission; Ok bare_message] repeated_label_world).2 =
    emit (Observe "ONBOARD_FAIL") (set_status "ONBOARD_FAIL" repeated_label_world).
Proof.
  apply (proj1 (proj2 (parley_discards_later_input "ONBOARD_FAIL" "ONBOARD_SUCCESS"
                         (Ok bare_message) [Ok marked_submission; Ok bare_message]
                         repeated_label_world)) bare_message); reflexivity.
Defined.
End onboarding_cases_further.

Section chat_cases_further.
Import TurnAnnotationsChatWorld.

(** The human's next message after the first exchange. *)
Lemma human_message_recorded_witness :
  ∃ self',
    side 0 (Ok (human_says "Bye<br>")) before_rating = (Ok false, self') ∧
    dialog self' =
      dialog before_rating
      ++ [set_problem_data no_problem (utterance_data 0 (human_says "Bye<br>") "Bye<br>")] ∧
    task_turn_idx self' = task_turn_idx before_rating + 1.
Proof.
  apply (human_message_recorded (human_says "Bye<br>") "Bye<br>" before_rating);
    vm_compute; reflexivity.
Defined.

Lemma message_shown_to_other_side_witness :
  agent_observed (side 0 (Ok (human_says "Bye<br>")) before_rating).2 =
    agent_observed before_rating ∧
  bot_observed (side 0 (Ok (human_says "Bye<br>")) before_rating).2 =
    bot_observed before_rating ++ [Acted (human_says "Bye<br>")].
Proof.
  apply (message_shown_to_other_side 0 (human_says "Bye<br>") false before_rating).
  vm_compute. reflexivity.
Defined.

(** A call on the finished chat. *)
Lemma parley_after_chat_done_witness :
  parley (Ok (human_says "Again")) (Ok (bot_says "Yes")) seeded_chat =
    (Raise AttributeError, seeded_chat).
Proof.
  apply (proj2 (parley_after_chat_done (Ok (human_says "Again")) (Ok (bot_says "Yes"))
                  seeded_chat ltac:(vm_compute; reflexivity))).
  vm_compute. discriminate.
Defined.

(** The rating that ends the seeded chat. *)
Lemma chat_done_by_rating_witness :
  task_turn_idx before_rating ≠ 0 ∧
  ∃ act fr,
    (Ok (rates "Worker" no_problem) = Ok act ∨ Ok (bot_says "") = Ok act) ∧
    final_rating_of act = Some fr.
Proof.
  apply chat_done_by_rating; vm_compute; reflexivity.
Defined.


(** The bot does not answer in time, then does, in a world that sends
    the persona first. *)
Lemma failed_greeting_is_kept_witness :
  ∃ self1 self2,
    parley (Ok (human_says "")) (Raise AgentTimeoutError) (start_world "hi" "convai2" 1)
      = (Raise AgentTimeoutError, self1) ∧
    task_turn_idx self1 = 0 ∧
    dialog self1 = [greeting (start_world "hi" "convai2" 1)] ∧
    agent_observed self1 = [Said (greeting (start_world "hi" "convai2" 1))] ∧
    length (bot_observed self1) = 2%nat ∧
    last (bot_observed self1) = Some (Said (greeting (start_world "hi" "convai2" 1))) ∧
    parley (Ok (human_says "")) (Ok (bot_says "Hello")) self1 = (Ok tt, self2) ∧
    dialog self2 =
      greeting (start_world "hi" "convai2" 1)
      :: greeting_pair (start_world "hi" "convai2" 1) "Hello" "Bot".
Proof.
  destruct (failed_greeting_is_kept (Ok (human_says "")) (Ok (human_says ""))
              AgentTimeoutError (bot_says "Hello") "Hello" "Bot"
              (start_world "hi" "convai2" 1)
              (send_persona (start_world "hi" "convai2" 1)).2)
    as (self1 & self2 & H1 & H2 & H3 & H4 & H5 & H6 & H7);
    [reflexivity | vm_compute; reflexivity | reflexivity | reflexivity
    | reflexivity |].
  exists self1, self2.
  split; [exact H1 |]. split; [exact H2 |]. split; [exact H3 |].
  split; [exact H4 |].
  split; [rewrite H5; vm_compute; reflexivity |].
  split; [rewrite H5; apply last_snoc |].
  split; [exact H6 | exact H7].
Defined.

(** The two finished chats. *)
Lemma screened_texts_begin_with_start_witness :
  head (human_texts (dialog greeted_chat)) = Some "Hi!" ∧
  head (human_texts (dialog seeded_chat)) =
    person1_seed_utterance (context_info seeded_chat).
Proof.
  split.
  - apply (screened_texts_begin_with_start _ _ _ _ _ _ greeted_chat
             (start_world_init "hi" "convai2" 1)).
    + apply (run_reachable _ short_chat (start_world "hi" "convai2" 1));
        [apply reachable_start | vm_compute; reflexivity].
    + vm_compute. discriminate.
    + reflexivity.
  - apply (screened_texts_begin_with_start _ _ _ _ _ _ seeded_chat
             (start_world_init "bst" "convai2" 1)).
    + apply (run_reachable _ short_chat (start_world "bst" "convai2" 1));
        [apply reachable_start | vm_compute; reflexivity].
    + vm_compute. discriminate.
    + reflexivity.
Defined.

(** The bot of the finished chat, chosen and then shut down. *)
Lemma finished_chat_counted_twice_witness :
  ∃ n,
    counted_once !! "bot_1" = Some n ∧
    <["bot_1" := 1]> counted_once = <["bot_1" := n + 1]> counted_once ∧
    shutdown seeded_chat (<["bot_1" := 1]> counted_once) =
      Ok (if chat_done seeded_chat then <["bot_1" := n + 2]> counted_once
          else <["bot_1" := 1]> counted_once).
Proof.
  apply (finished_chat_counted_twice needed_once counted_once "bot_1"
           (<["bot_1" := 1]> counted_once) seeded_chat).
  - vm_compute. reflexivity.
  - reflexivity.
Defined.
End chat_cases_further.
